(** * H&G Abogados IA: the portal connectors, embedded and verified

    A shallow embedding of [providers/fielweb_connector.py],
    [providers/judicial_connectors.py] and the hybrid endpoint of [main.py].

    Conventions of the embedding.
    - A Python [str] is a Rocq [string]; one Rocq character stands for one
      code point below 256, so [lower] and [strip] act on the Latin-1 range
      exactly as Python's [str.lower] and [str.strip] do there.
    - A result record of the judicial connector is a [dict] whose fields are
      all [str]: a [gmap string string].  Dictionaries that cross the API
      boundary (payloads, responses) hold arbitrary values: [gmap string pyval].
    - Browser-driving code runs in a state-and-exception monad over the state
      of the outside world; every awaited Playwright call is logged.
    - [debug_log] only prints; it is left out. *)

From Stdlib Require Import Ascii String NArith.
From stdpp Require Import gmap strings list fin_maps.

#[local] Set Warnings "-clear-no-such-hyp".

(** ** Python strings *)

Module PyStr.

(** [c.isspace()] on code points below 256. *)
Definition is_space (c : ascii) : bool :=
  let n := N_of_ascii c in
  ((9 <=? n) && (n <=? 13) || (28 <=? n) && (n <=? 32)
   || (n =? 133) || (n =? 160))%N.

(** [c.lower()] on code points below 256. *)
Definition lower_char (c : ascii) : ascii :=
  let n := N_of_ascii c in
  if ((65 <=? n) && (n <=? 90)
      || (192 <=? n) && (n <=? 222) && negb (n =? 215))%N
  then ascii_of_N (n + 32) else c.

Fixpoint lower (s : string) : string :=
  match s with
  | EmptyString => EmptyString
  | String c s' => String (lower_char c) (lower s')
  end.

Fixpoint lstrip (s : string) : string :=
  match s with
  | EmptyString => EmptyString
  | String c s' => if is_space c then lstrip s' else s
  end.

(** [rstrip] drops the trailing run of white space. *)
Fixpoint rstrip (s : string) : string :=
  match s with
  | EmptyString => EmptyString
  | String c s' =>
      match rstrip s' with
      | EmptyString => if is_space c then EmptyString else String c EmptyString
      | r => String c r
      end
  end.

Definition strip (s : string) : string := rstrip (lstrip s).

Definition newline : ascii := ascii_of_N 10.

(** [s.split("\n")[0]]: everything before the first line feed. *)
Fixpoint first_line (s : string) : string :=
  match s with
  | EmptyString => EmptyString
  | String c s' =>
      if Ascii.eqb c newline then EmptyString else String c (first_line s')
  end.

(** [s[:n]] *)
Fixpoint slice_to (n : nat) (s : string) : string :=
  match n, s with
  | S n', String c s' => String c (slice_to n' s')
  | _, _ => EmptyString
  end.

(** [k in t]: [k] occurs in [t] as a contiguous substring. *)
Fixpoint contains (k t : string) : bool :=
  if String.prefix k t then true
  else match t with
       | EmptyString => false
       | String _ t' => contains k t'
       end.

(** Truth value of a [str]. *)
Definition truthy (s : string) : bool := negb (String.eqb s "").

(** [a or b] on strings. *)
Definition or_else (a b : string) : string := if truthy a then a else b.

Fixpoint mem (c : ascii) (s : string) : bool :=
  match s with
  | EmptyString => false
  | String d s' => Ascii.eqb c d || mem c s'
  end.

End PyStr.

(** ** FielWeb: link classification *)

Definition DOWNLOAD_FILTERS : list string := ["pdf"; "word"; "docx"].
Definition LABEL_CONCORDANCIAS : list string := ["Concordancia"; "Concordancias"].
Definition LABEL_JURIS : list string :=
  ["Jurisprudencia"; "Sentencia"; "Jurisprudencias"; "Sentencias"].

(** [any(k in t for k in ks)] *)
Definition any_in (ks : list string) (t : string) : bool :=
  existsb (fun k => PyStr.contains k t) ks.

Definition _classify_link (texto : string) : string :=
  let t := PyStr.lower texto in
  if any_in DOWNLOAD_FILTERS t then "descarga"
  else if any_in LABEL_CONCORDANCIAS t then "concordancia"
  else if any_in LABEL_JURIS t then "jurisprudencia"
  else "otro".

(** ** Judicial connector: order-preserving deduplication *)

Definition MAX_ITEMS : nat := 10.

(** The loop of [_dedup]: [seen] and [out] are the two accumulators. *)
Fixpoint dedup_loop (key : string) (items : list (gmap string string))
    (seen : gset string) (out : list (gmap string string))
  : list (gmap string string) :=
  match items with
  | [] => out
  | i :: rest =>
      match i !! key with
      | Some val =>
          if PyStr.truthy val && bool_decide (val ∉ seen)
          then dedup_loop key rest ({[val]} ∪ seen) (out ++ [i])
          else dedup_loop key rest seen out
      | None => dedup_loop key rest seen out
      end
  end.

Definition _dedup (items : list (gmap string string)) (key : string)
  : list (gmap string string) :=
  dedup_loop key items ∅ [].

(** The deduplicator as the specification words it: the record at position
    [n] is kept when its key is present and non-empty and no earlier record
    carries the same key value. *)
Definition key_is_new (key : string) (items : list (gmap string string))
    (n : nat) : bool :=
  match items !! n with
  | Some r =>
      match r !! key with
      | Some v =>
          PyStr.truthy v
          && forallb (fun r' => bool_decide (r' !! key ≠ Some v)) (take n items)
      | None => false
      end
  | None => false
  end.

Definition dedup_spec (items : list (gmap string string)) (key : string)
  : list (gmap string string) :=
  omap (fun n => if key_is_new key items n then items !! n else None)
       (seq 0 (length items)).

(** ** Values that cross the API boundary *)

(** JSON-like Python values: what a request payload can hold and what a
    response dictionary is made of. *)
#[warnings="-register-all"] Inductive pyval :=
| PNone
| PBool (b : bool)
| PInt (z : Z)
| PStr (s : string)
| PList (l : list pyval)
| PDict (d : gmap string pyval).

Module PyVal.

Definition dict_truthy (d : gmap string pyval) : bool := negb (Nat.eqb (size d) 0).

(** [bool(v)] *)
Definition truthy (v : pyval) : bool :=
  match v with
  | PNone => false
  | PBool b => b
  | PInt z => negb (z =? 0)%Z
  | PStr s => PyStr.truthy s
  | PList l => match l with [] => false | _ => true end
  | PDict d => dict_truthy d
  end.

(** [a or b] *)
Definition or_else (a b : pyval) : pyval := if truthy a then a else b.

(** [d.get(k)]: [None] when the key is absent. *)
Definition get (d : gmap string pyval) (k : string) : pyval :=
  default PNone (d !! k).

(** [d.get(k, dflt)] *)
Definition get_default (d : gmap string pyval) (k : string) (dflt : pyval)
  : pyval :=
  default dflt (d !! k).

(** A judicial result record as a value. *)
Definition of_record (r : gmap string string) : pyval := PDict (PStr <$> r).

(** [type(v).__name__] *)
Definition type_name (v : pyval) : string :=
  match v with
  | PNone => "NoneType"
  | PBool _ => "bool"
  | PInt _ => "int"
  | PStr _ => "str"
  | PList _ => "list"
  | PDict _ => "dict"
  end.

End PyVal.

(** ** Exceptions, outcomes and the browser interface *)

(** Classes below [Exception] that the connectors meet.  [PWTimeout] is
    Playwright's [TimeoutError]; [HTTPException] is what the endpoints raise. *)
Inductive exn_class :=
| PWTimeout | RuntimeError | ValueError | AttributeError
| HTTPException (status_code : N) | OtherException.

Record exn := Exn { exn_cls : exn_class; exn_str : string }.

Definition is_PWTimeout (e : exn) : bool :=
  match exn_cls e with PWTimeout => true | _ => false end.

Inductive outcome (A : Type) :=
| Ok (a : A)
| Raise (e : exn).
Arguments Ok {A} a.
Arguments Raise {A} e.

(** Every awaited call on the Playwright objects. *)
Inductive call :=
| CStart
| CLaunch (headless : bool) (args : list string)
| CNewContext
| CNewPage
| CSetDefaultTimeout (ms : N)
| CGoto (url wait_until : string) (timeout : N)
| CQuerySelector (sel : string)
| CFill (sel value : string)
| CClick (sel : string)
| CWaitForLoadState (state : string) (timeout : N)
| CWaitForTimeout (ms : N)
| CQuerySelectorAll (sel : string)
| CInnerText
| CNodeQuerySelectorAll (sel : string)
| CGetAttribute (name : string)
| CContextClose
| CBrowserClose
| CStop.

(** The outside world: a browser with one page, whose every answer may
    depend on, and change, the state [W] of the world.  [urljoin] is
    [urllib.parse.urljoin], which may raise [ValueError]. *)
Class Browser (W Node : Type) := {
  command : call -> W -> outcome unit * W;
  page_query_selector : string -> W -> outcome (option Node) * W;
  page_query_selector_all : string -> W -> outcome (list Node) * W;
  node_inner_text : Node -> W -> outcome string * W;
  node_query_selector_all : Node -> string -> W -> outcome (list Node) * W;
  node_get_attribute : Node -> string -> W -> outcome (option string) * W;
  page_url : W -> string;
  urljoin : string -> string -> outcome string;
}.

(** The state threaded through a run: the world and the calls made so far. *)
Record St (W : Type) := MkSt { world : W; log : list call }.
Arguments MkSt {W} world log.
Arguments world {W} s.
Arguments log {W} s.

Definition M (W A : Type) : Type := St W -> outcome A * St W.

Module Run.
Section Monad.
Context {W : Type}.

Definition ret {A} (a : A) : M W A := fun s => (Ok a, s).

Definition raise {A} (e : exn) : M W A := fun s => (Raise e, s).

(** A computation that touches no state: it returns or raises at once. *)
Definition lift {A} (o : outcome A) : M W A := fun s => (o, s).

Definition bind {A B} (m : M W A) (k : A -> M W B) : M W B :=
  fun s => match m s with
           | (Ok a, s') => k a s'
           | (Raise e, s') => (Raise e, s')
           end.

(** [try: m  except ...: h]; the handler says which exceptions it takes. *)
Definition try_except {A} (m : M W A) (h : exn -> option (M W A)) : M W A :=
  fun s => match m s with
           | (Ok a, s') => (Ok a, s')
           | (Raise e, s') =>
               match h e with
               | Some k => k s'
               | None => (Raise e, s')
               end
           end.

(** [except Exception as e: k e] *)
Definition except_Exception {A} (k : exn -> M W A) : exn -> option (M W A) :=
  fun e => Some (k e).

(** [except PWTimeout: k] *)
Definition except_PWTimeout {A} (k : M W A) : exn -> option (M W A) :=
  fun e => if is_PWTimeout e then Some k else None.

(** [except PWTimeout as te: k1 te  except Exception as e: k2 e] *)
Definition except_PWTimeout_then_Exception {A} (k1 k2 : exn -> M W A)
  : exn -> option (M W A) :=
  fun e => if is_PWTimeout e then Some (k1 e) else Some (k2 e).

(** [try: m  finally: fin]; an exception of [fin] replaces the outcome. *)
Definition try_finally {A} (m : M W A) (fin : M W unit) : M W A :=
  fun s => match m s with
           | (r, s1) =>
               match fin s1 with
               | (Ok _, s2) => (r, s2)
               | (Raise e, s2) => (Raise e, s2)
               end
           end.

(** [for x in xs: acc = body x acc] *)
Fixpoint for_each {X R} (xs : list X) (body : X -> R -> M W R) (acc : R)
  : M W R :=
  match xs with
  | [] => ret acc
  | x :: xs' => bind (body x acc) (for_each xs' body)
  end.

End Monad.
End Run.

Notation "x <- m ;; k" := (Run.bind m (fun x => k))
  (at level 100, m at next level, right associativity).
Notation "m ;;; k" := (Run.bind m (fun _ => k))
  (at level 100, right associativity).

(** Characters that the source writes as literals outside ASCII, and the
    double quote, by code point. *)
Definition chr (n : N) : string := String (ascii_of_N n) EmptyString.
Definition quoted (s : string) : string := chr 34 +:+ s +:+ chr 34.

Definition PAGE_TIMEOUT_MS : N := 30000.
Definition NAV_TIMEOUT_MS : N := 35000.

(** [bool(sel)] for an [Optional[str]]. *)
Definition sel_truthy (o : option string) : bool :=
  match o with Some s => PyStr.truthy s | None => false end.

(** [o or ""] for an [Optional[str]]. *)
Definition str_or_empty (o : option string) : string :=
  match o with Some s => s | None => "" end.

(** ** Awaited calls, each one logged *)

Section Calls.
Context {W Node : Type} `{!Browser W Node}.

Definition logged {A} (c : call) (f : W -> outcome A * W) : M W A :=
  fun s => match f (world s) with
           | (r, w) => (r, MkSt w (log s ++ [c]))
           end.

Definition emit (c : call) : M W unit := logged c (command c).

Definition goto (url : string) : M W unit :=
  emit (CGoto url "domcontentloaded" NAV_TIMEOUT_MS).
Definition fill (sel value : string) : M W unit := emit (CFill sel value).
Definition click (sel : string) : M W unit := emit (CClick sel).
Definition wait_for_load_state : M W unit :=
  emit (CWaitForLoadState "networkidle" NAV_TIMEOUT_MS).
Definition wait_for_timeout (ms : N) : M W unit := emit (CWaitForTimeout ms).

Definition query_selector (sel : string) : M W (option Node) :=
  logged (CQuerySelector sel) (page_query_selector sel).
Definition query_selector_all (sel : string) : M W (list Node) :=
  logged (CQuerySelectorAll sel) (page_query_selector_all sel).
Definition inner_text (n : Node) : M W string :=
  logged CInnerText (node_inner_text n).
Definition query_selector_all_in (n : Node) (sel : string) : M W (list Node) :=
  logged (CNodeQuerySelectorAll sel) (node_query_selector_all n sel).
Definition get_attribute (n : Node) (name : string) : M W (option string) :=
  logged (CGetAttribute name) (node_get_attribute n name).

(** [page.url] is a plain attribute read. *)
Definition current_url : M W string :=
  fun s => (Ok (page_url (world s)), s).

(** [urljoin(base, href)] inside a coroutine. *)
Definition urljoin_m (base href : string) : M W string :=
  Run.lift (urljoin base href).

(** [async with async_playwright() as p: body] *)
Definition async_with_playwright {A} (body : M W A) : M W A :=
  emit CStart ;;; Run.try_finally body (emit CStop).

Definition launch_args : list string :=
  ["--no-sandbox"; "--disable-dev-shm-usage"; "--disable-gpu";
   "--disable-setuid-sandbox"; "--disable-web-security"].

(** The four lines that acquire the page. *)
Definition open_page : M W unit :=
  emit (CLaunch true launch_args) ;;;
  emit CNewContext ;;;
  emit CNewPage ;;;
  emit (CSetDefaultTimeout PAGE_TIMEOUT_MS).

(** The [finally] block of both connectors. *)
Definition close_all : M W unit :=
  emit CContextClose ;;; emit CBrowserClose.

(** *** Helpers shared by the two connectors *)

Fixpoint _first_selector (selectors : list string) : M W (option string) :=
  match selectors with
  | [] => Run.ret None
  | sel :: rest =>
      hit <- Run.try_except
               (n <- query_selector sel ;; Run.ret (bool_decide (is_Some n)))
               (Run.except_Exception (fun _ => Run.ret false)) ;;
      if hit then Run.ret (Some sel) else _first_selector rest
  end.

(** [try: wait_for_load_state("networkidle")  except PWTimeout: wait_for_timeout(ms)] *)
Definition settle (grace_ms : N) : M W unit :=
  Run.try_except wait_for_load_state
    (Run.except_PWTimeout (wait_for_timeout grace_ms)).

End Calls.

(** ** providers/judicial_connectors.py *)

(** The three portal addresses, read from the environment at import time. *)
Record urls := {
  satje : string;
  corte_constitucional : string;
  corte_nacional : string;
}.

Definition default_URLS : urls := {|
  satje := "https://satje.funcionjudicial.gob.ec/busquedaSentencias.aspx";
  corte_constitucional := "https://portal.corteconstitucional.gob.ec/FichaRelatoria";
  corte_nacional := "https://portalcortej.justicia.gob.ec/FichaRelatoria";
|}.

(** The record appended when a source raises. *)
Definition error_record (fuente : string) (e : exn) : gmap string string :=
  {[ "fuente" := fuente; "error" := "No disponible: " +:+ exn_str e ]}.

Section Judicial.
Context {W Node : Type} `{!Browser W Node}.
Variable URLS : urls.

Definition _safe_inner_text (node : Node) (default : string) : M W string :=
  Run.try_except
    (t <- inner_text node ;;
     let txt := PyStr.strip t in
     Run.ret (PyStr.or_else txt default))
    (Run.except_Exception (fun _ => Run.ret default)).

Definition _abs_url (base href : string) : string :=
  match urljoin base (PyStr.or_else href "") with
  | Ok u => u
  | Raise _ => PyStr.or_else href ""
  end.

(** One container of a result page.  The three sources run the same
    loop body; only the literals [fuente] and [descripcion] differ. *)
Definition recoger_nodo (fuente descripcion : string) (n : Node)
    (resultados : list (gmap string string))
  : M W (list (gmap string string)) :=
  txt <- _safe_inner_text n "" ;;
  anchors <- query_selector_all_in n "a" ;;
  Run.for_each anchors (fun a (resultados : list (gmap string string)) =>
    href <- get_attribute a "href" ;;
    if sel_truthy href then
      base <- current_url ;;
      Run.ret (resultados ++
        [ {[ "fuente" := fuente;
             "titulo" := PyStr.slice_to 140 (PyStr.first_line txt);
             "descripcion" := descripcion;
             "url" := _abs_url base (str_or_empty href) ]} ])
    else Run.ret resultados) resultados.

(** [for n in nodes[:MAX_ITEMS]: ...] followed by [return _dedup(resultados)] *)
Definition recoger (fuente descripcion : string) (nodes : list Node)
  : M W (list (gmap string string)) :=
  resultados <- Run.for_each (take MAX_ITEMS nodes)
                  (recoger_nodo fuente descripcion) [] ;;
  Run.ret (_dedup resultados "url").

Definition _buscar_satje (texto : string) : M W (list (gmap string string)) :=
  goto (satje URLS) ;;;
  q_sel <- _first_selector ["#txtBuscar"; "input[id*=" +:+ quoted "Buscar" +:+ "]"] ;;
  b_sel <- _first_selector ["#btnBuscar"; "button[id*=" +:+ quoted "btnBuscar" +:+ "]"] ;;
  if negb (sel_truthy q_sel) || negb (sel_truthy b_sel) then Run.ret []
  else
    fill (str_or_empty q_sel) texto ;;;
    click (str_or_empty b_sel) ;;;
    settle 1500 ;;;
    nodes <- query_selector_all ".DataGridItemStyle, .card, tr, .resultado" ;;
    recoger "SATJE" "Sentencia registrada en SATJE" nodes.

Definition _buscar_corte_constitucional (texto : string)
  : M W (list (gmap string string)) :=
  goto (corte_constitucional URLS) ;;;
  q_sel <- _first_selector ["#txtPalabraClave"; "input[id*=" +:+ quoted "Palabra" +:+ "]"] ;;
  b_sel <- _first_selector ["#btnBuscar"; "button[id*=" +:+ quoted "btnBuscar" +:+ "]"] ;;
  if negb (sel_truthy q_sel) || negb (sel_truthy b_sel) then Run.ret []
  else
    fill (str_or_empty q_sel) texto ;;;
    click (str_or_empty b_sel) ;;;
    settle 1500 ;;;
    nodes <- query_selector_all ".list-group-item, .panel-body, tr, .resultado" ;;
    recoger "Corte Constitucional"
            ("Relator" +:+ chr 237 +:+ "a Constitucional") nodes.

Definition _buscar_corte_nacional (texto : string)
  : M W (list (gmap string string)) :=
  goto (corte_nacional URLS) ;;;
  q_sel <- _first_selector ["#txtPalabraClave"; "input[id*=" +:+ quoted "Palabra" +:+ "]"] ;;
  b_sel <- _first_selector ["#btnBuscar"; "button[id*=" +:+ quoted "btnBuscar" +:+ "]"] ;;
  if negb (sel_truthy q_sel) || negb (sel_truthy b_sel) then Run.ret []
  else
    fill (str_or_empty q_sel) texto ;;;
    click (str_or_empty b_sel) ;;;
    settle 1500 ;;;
    nodes <- query_selector_all ".panel-body, .list-group-item, .card, tr" ;;
    recoger "Corte Nacional de Justicia"
            ("Precedente o Relator" +:+ chr 237 +:+ "a CNJ") nodes.

(** The sources in declaration order. *)
Definition fuentes : list (string * (string -> M W (list (gmap string string)))) :=
  [ ("SATJE", _buscar_satje);
    ("Corte Constitucional", _buscar_corte_constitucional);
    ("Corte Nacional de Justicia", _buscar_corte_nacional) ].

(** The [for fuente, funcion in ...] loop with its inner [try]. *)
Definition consultar_fuentes
    (srcs : list (string * (string -> M W (list (gmap string string)))))
    (texto : string) (resultados : list (gmap string string))
  : M W (list (gmap string string)) :=
  Run.for_each srcs (fun '(fuente, funcion) (resultados : list (gmap string string)) =>
    Run.try_except
      (res <- funcion texto ;; Run.ret (resultados ++ res))
      (Run.except_Exception (fun e =>
         Run.ret (resultados ++ [error_record fuente e]))))
    resultados.

(** The body of the outer [try] of [_buscar_juris_async]. *)
Definition juris_try_body (texto : string) : M W (gmap string pyval) :=
  resultados <- consultar_fuentes fuentes texto [] ;;
  let resultados := _dedup resultados "url" in
  Run.ret {[ "mensaje" := PStr ("Consulta completada para '" +:+ texto +:+ "'.");
             "nivel_consulta" := PStr "Jurisprudencia";
             "resultado" := PList (PyVal.of_record <$> take MAX_ITEMS resultados) ]}.

Definition _buscar_juris_async (texto : string) : M W (gmap string pyval) :=
  if negb (PyStr.truthy texto)
  then Run.ret {[ "error" := PStr ("Debe ingresar un texto de b" +:+ chr 250 +:+ "squeda.") ]}
  else
    async_with_playwright
      (open_page ;;;
       Run.try_finally (juris_try_body texto) close_all).

(** [(a or b or "").strip()]: only a [str] has [strip]. *)
Definition texto_de (a b : pyval) : outcome string :=
  match PyVal.or_else a (PyVal.or_else b (PStr "")) with
  | PStr s => Ok (PyStr.strip s)
  | v => Raise (Exn AttributeError
                  ("'" +:+ PyVal.type_name v +:+ "' object has no attribute 'strip'"))
  end.

Definition consultar_jurisprudencia (payload : gmap string pyval)
  : M W (gmap string pyval) :=
  texto <- Run.lift (texto_de (PyVal.get payload "texto")
                              (PyVal.get payload "palabras_clave")) ;;
  if negb (PyStr.truthy texto)
  then Run.ret {[ "error" := PStr ("Debe proporcionar un texto v" +:+ chr 225
                                   +:+ "lido para b" +:+ chr 250 +:+ "squeda.") ]}
  else
    Run.try_except (_buscar_juris_async texto)
      (Run.except_PWTimeout_then_Exception
         (fun te => Run.ret {[ "error" := PStr ("Tiempo de espera agotado: " +:+ exn_str te);
                               "nivel_consulta" := PStr "Jurisprudencia" ]})
         (fun e => Run.ret {[ "error" := PStr ("Error general al consultar jurisprudencia: "
                                               +:+ exn_str e);
                              "nivel_consulta" := PStr "Jurisprudencia" ]})).

End Judicial.

(** ** providers/fielweb_connector.py *)

(** Login address and credentials, read from the environment at import time. *)
Record fielweb_env := {
  FIELWEB_URL : string;
  USERNAME : string;
  PASSWORD : string;
}.

Definition LOGIN_SELECTORS_user : list string :=
  ["#usuario"; "input[name=" +:+ quoted "usuario" +:+ "]";
   "input[placeholder*=" +:+ quoted "Usuario" +:+ "]";
   "input[id*=" +:+ quoted "txtUsuario" +:+ "]"].
Definition LOGIN_SELECTORS_password : list string :=
  ["#clave"; "input[name=" +:+ quoted "clave" +:+ "]";
   "input[placeholder*=" +:+ quoted "Clave" +:+ "]";
   "input[id*=" +:+ quoted "txtClave" +:+ "]";
   "input[type=" +:+ quoted "password" +:+ "]"].
Definition LOGIN_SELECTORS_submit : list string :=
  ["#btnEntrar"; "button:has-text(" +:+ quoted "Entrar" +:+ ")";
   "input[value=" +:+ quoted "Entrar" +:+ "]";
   "button[type=" +:+ quoted "submit" +:+ "]";
   "#ctl00_ContentPlaceHolder1_btnIngresar"].

Definition SEARCH_SELECTORS_query : list string :=
  ["input[id*=" +:+ quoted "txtBuscar" +:+ "]";
   "input[placeholder*=" +:+ quoted "Buscar" +:+ "]";
   "input[name*=" +:+ quoted "txtBuscar" +:+ "]"].
Definition SEARCH_SELECTORS_submit : list string :=
  ["button:has-text(" +:+ quoted "Buscar" +:+ ")";
   "#ctl00_ContentPlaceHolder1_btnBuscar";
   "button[type=" +:+ quoted "submit" +:+ "]"].

Definition RESULT_ITEM_SELECTORS : list string :=
  [".resultadoItem"; ".card-body"; "div.resultado"; "div.search-result"].

(** The title expression of [_buscar]: [text.split("\n")[0].strip()]. *)
Definition fielweb_title (inner : string) : string :=
  PyStr.strip (PyStr.first_line inner).

(** The title expression of the judicial sources, applied to the inner
    text: [_safe_inner_text] strips, then [txt.split("\n")[0][:140]]. *)
Definition juris_title (inner : string) : string :=
  PyStr.slice_to 140 (PyStr.first_line (PyStr.or_else (PyStr.strip inner) "")).

Section FielWeb.
Context {W Node : Type} `{!Browser W Node}.
Variable ENV : fielweb_env.

Definition _login (url user password : string) : M W unit :=
  goto url ;;;
  user_sel <- _first_selector LOGIN_SELECTORS_user ;;
  pass_sel <- _first_selector LOGIN_SELECTORS_password ;;
  subm_sel <- _first_selector LOGIN_SELECTORS_submit ;;
  if negb (forallb sel_truthy [user_sel; pass_sel; subm_sel])
  then Run.raise (Exn RuntimeError
                    "Campos de login no encontrados (posible cambio en FielWeb).")
  else
    fill (str_or_empty user_sel) user ;;;
    fill (str_or_empty pass_sel) password ;;;
    click (str_or_empty subm_sel) ;;;
    settle 2000.

(** One result container: its title and its classified links. *)
Definition extraer_nodo (node : Node) (resultados : list pyval)
  : M W (list pyval) :=
  inner <- inner_text node ;;
  let title := PyStr.strip (PyStr.first_line inner) in
  links <- query_selector_all_in node "a" ;;
  enlaces <-
    Run.for_each links (fun a (enlaces : list pyval) =>
      h <- get_attribute a "href" ;;
      let href := str_or_empty h in
      t <- inner_text a ;;
      let text := PyStr.or_else t "" in
      let tipo := _classify_link text in
      if PyStr.truthy href then
        base <- current_url ;;
        url <- urljoin_m base href ;;
        Run.ret (enlaces ++
          [ PDict {[ "tipo" := PStr tipo;
                     "texto" := PStr (PyStr.or_else (PyStr.strip text) "enlace");
                     "url" := PStr url ]} ])
      else Run.ret enlaces) [] ;;
  Run.ret (resultados ++
    [ PDict {[ "titulo" := PStr title; "enlaces" := PList enlaces ]} ]).

(** The [for sel in RESULT_ITEM_SELECTORS] loop with its [break]. *)
Fixpoint extraer_resultados (sels : list string) : M W (list pyval) :=
  match sels with
  | [] => Run.ret []
  | sel :: rest =>
      nodes <- query_selector_all sel ;;
      match nodes with
      | [] => extraer_resultados rest
      | _ => Run.for_each (take MAX_ITEMS nodes) extraer_nodo []
      end
  end.

Definition _buscar (texto : string) : M W (list pyval) :=
  q_sel <- _first_selector SEARCH_SELECTORS_query ;;
  b_sel <- _first_selector SEARCH_SELECTORS_submit ;;
  if negb (forallb sel_truthy [q_sel; b_sel])
  then Run.raise (Exn RuntimeError
                    ("No se encontraron los controles de b" +:+ chr 250 +:+ "squeda."))
  else
    fill (str_or_empty q_sel) texto ;;;
    click (str_or_empty b_sel) ;;;
    settle 2000 ;;;
    extraer_resultados RESULT_ITEM_SELECTORS.

(** The [try ... except Exception] of [_buscar_en_fielweb_async]. *)
Definition fielweb_try_body (texto : string) : M W (gmap string pyval) :=
  Run.try_except
    (_login (FIELWEB_URL ENV) (USERNAME ENV) (PASSWORD ENV) ;;;
     wait_for_timeout 2500 ;;;
     data <- _buscar texto ;;
     Run.ret {[ "mensaje" := PStr ("Resultados para '" +:+ texto +:+ "'");
                "nivel_consulta" := PStr "FielWeb";
                "resultado" := PList data ]})
    (Run.except_Exception (fun e =>
       Run.ret {[ "error" := PStr ("Error interno en la b" +:+ chr 250
                                   +:+ "squeda: " +:+ exn_str e);
                  "nivel_consulta" := PStr "FielWeb" ]})).

Definition _buscar_en_fielweb_async (texto : string) : M W (gmap string pyval) :=
  if negb (forallb PyStr.truthy [FIELWEB_URL ENV; USERNAME ENV; PASSWORD ENV])
  then Run.raise (Exn RuntimeError
         ("Faltan variables de entorno para FielWeb (URL, usuario o contrase"
          +:+ chr 241 +:+ "a)."))
  else
    async_with_playwright
      (open_page ;;;
       Run.try_finally (fielweb_try_body texto) close_all).

Definition consultar_fielweb (payload : gmap string pyval)
  : M W (gmap string pyval) :=
  texto <- Run.lift (texto_de (PyVal.get payload "texto")
                              (PyVal.get payload "consulta")) ;;
  if negb (PyStr.truthy texto)
  then Run.ret {[ "error" :=
         PStr ("Debe proporcionar un texto de b" +:+ chr 250
               +:+ "squeda en 'texto' o 'consulta'.") ]}
  else
    Run.try_except (_buscar_en_fielweb_async texto)
      (Run.except_PWTimeout_then_Exception
         (fun te => Run.ret {[ "error" := PStr ("Tiempo de espera agotado: " +:+ exn_str te);
                               "nivel_consulta" := PStr "FielWeb" ]})
         (fun e => Run.ret {[ "error" := PStr ("Error general al consultar FielWeb: "
                                               +:+ exn_str e);
                              "nivel_consulta" := PStr "FielWeb" ]})).

End FielWeb.

(** ** main.py: the hybrid endpoint *)

(** [bool(r)] and [r.get("resultado") if r else []] for a connector result
    that is a dictionary or [None]. *)
Definition resultado_truthy (r : option (gmap string pyval)) : bool :=
  match r with Some d => PyVal.dict_truthy d | None => false end.

Definition resultado_o_vacio (r : option (gmap string pyval)) : pyval :=
  match r with
  | Some d => if PyVal.dict_truthy d then PyVal.get d "resultado" else PList []
  | None => PList []
  end.

Section Main.
Context {W Node : Type} `{!Browser W Node}.
Variable ENV : fielweb_env.
Variable URLS : urls.
(** Whether the import of the two connectors succeeded; when it did not,
    both names are [None]. *)
Variable conectores : bool.

Definition consult_hybrid (payload : gmap string pyval) : M W (gmap string pyval) :=
  let texto := PyVal.get_default payload "texto" (PStr "") in
  let tipo := PyVal.get_default payload "tipo_usuario" (PStr "") in
  Run.try_except
    (resultado_fielweb <-
       (if conectores then r <- consultar_fielweb ENV payload ;; Run.ret (Some r)
        else Run.ret None) ;;
     resultado_juris <-
       (if conectores then r <- consultar_jurisprudencia URLS payload ;; Run.ret (Some r)
        else Run.ret None) ;;
     let combinado : gmap string pyval :=
       {[ "normativa_y_concordancias" := resultado_o_vacio resultado_fielweb;
          "jurisprudencia_y_sentencias" := resultado_o_vacio resultado_juris ]} in
     Run.ret {[ "status" := PStr "ok";
                "mensaje" := PStr ("Consulta h" +:+ chr 237 +:+ "brida completada con "
                                   +:+ chr 233 +:+ "xito");
                "texto_consultado" := texto;
                "tipo_usuario" := tipo;
                "fuentes_consultadas" :=
                  PDict {[ "FielWeb" := PBool (resultado_truthy resultado_fielweb);
                           "Jurisprudencia" := PBool (resultado_truthy resultado_juris) ]};
                "resultado" := PDict combinado ]})
    (Run.except_Exception (fun e =>
       Run.raise (Exn (HTTPException 500)
                    ("Error h" +:+ chr 237 +:+ "brido: " +:+ exn_str e)))).

End Main.

(** ** A scripted portal, to run the connectors on concrete pages *)

Module Fake.

(** An element: its text (or the exception [inner_text] raises), its
    [href] attribute and its anchor descendants. *)
#[warnings="-register-all"] Inductive node :=
| Nodo (text : outcome string) (href : option string) (anchors : list node).

Definition text_of (n : node) : outcome string :=
  match n with Nodo t _ _ => t end.
Definition href_of (n : node) : option string :=
  match n with Nodo _ h _ => h end.
Definition anchors_of (n : node) : list node :=
  match n with Nodo _ _ a => a end.

Record world := {
  location : string;                 (* page.url *)
  present : list string;             (* selectors that match some node *)
  containers : string -> list node;  (* answer of page.query_selector_all *)
  broken : call -> option exn;       (* calls scripted to raise *)
}.

Definition moved_to (url : string) (w : world) : world :=
  {| location := url; present := present w;
     containers := containers w; broken := broken w |}.

Definition answer {A} (c : call) (a : world -> A) (w : world) : outcome A * world :=
  match broken w c with
  | Some e => (Raise e, w)
  | None => (Ok (a w), w)
  end.

Definition run_command (c : call) (w : world) : outcome unit * world :=
  match broken w c with
  | Some e => (Raise e, w)
  | None =>
      (Ok tt, match c with CGoto url _ _ => moved_to url w | _ => w end)
  end.

#[global] Instance browser : Browser world node := {|
  command := run_command;
  page_query_selector sel :=
    answer (CQuerySelector sel) (fun w =>
      if bool_decide (sel ∈ present w) then Some (Nodo (Ok "") None []) else None);
  page_query_selector_all sel :=
    answer (CQuerySelectorAll sel) (fun w => containers w sel);
  node_inner_text n w := (text_of n, w);
  node_query_selector_all n sel := answer (CNodeQuerySelectorAll sel) (fun _ => anchors_of n);
  node_get_attribute n name := answer (CGetAttribute name) (fun _ => href_of n);
  page_url := location;
  urljoin base href := Ok href;
|}.

Definition start (w : world) : St world := MkSt w [].

(** A portal where every form control of every connector is found. *)
Definition all_controls : list string :=
  ["#txtBuscar"; "#btnBuscar"; "#txtPalabraClave"; "#usuario"; "#clave";
   "#btnEntrar"; "input[id*=" +:+ quoted "txtBuscar" +:+ "]";
   "#ctl00_ContentPlaceHolder1_btnBuscar"].

Definition never : call -> option exn := fun _ => None.

Definition is_goto (c : call) : bool :=
  match c with CGoto _ _ _ => true | _ => false end.

Definition is_settle_wait (c : call) : bool :=
  match c with CWaitForLoadState _ _ => true | _ => false end.

(** A link as the anchor of a container. *)
Definition anchor (label href : string) : node := Nodo (Ok label) (Some href) [].

(** A container with one link. *)
Definition item (text href : string) : node :=
  Nodo (Ok text) None [anchor "ver" href].

End Fake.

(** ** Specification-side definitions *)

(** The non-empty key values that occur in a list of records. *)
Definition keys_seen (key : string) (items : list (gmap string string))
  : gset string :=
  list_to_set
    (omap (fun r => match r !! key with
                    | Some v => if PyStr.truthy v then Some v else None
                    | None => None
                    end) items).

(** The key values of a list of records, in order. *)
Definition key_values (key : string) (items : list (gmap string string))
  : list string :=
  omap (fun r => r !! key) items.

(** *** Probing, as the selector resolver sees it *)

Section Probes.
Context {W Node : Type} `{!Browser W Node}.

(** The probe of [sel] finds a node; a probe that raises does not. *)
Definition probe_hits (sel : string) (s : St W) : bool :=
  match fst (query_selector sel s) with
  | Ok (Some _) => true
  | Ok None => false
  | Raise _ => false
  end.

(** The state that probing [sels] one after the other leaves behind. *)
Fixpoint after_probes (sels : list string) (s : St W) : St W :=
  match sels with
  | [] => s
  | sel :: rest => after_probes rest (snd (query_selector sel s))
  end.

(** None of the probes of [sels], made one after the other, finds a node. *)
Fixpoint all_miss (sels : list string) (s : St W) : bool :=
  match sels with
  | [] => true
  | sel :: rest =>
      negb (probe_hits sel s) && all_miss rest (snd (query_selector sel s))
  end.

End Probes.

(** *** What each source contributes to the merged list *)

Section Aportes.
Context {W Node : Type} `{!Browser W Node}.

(** The records one source adds to the merged list, and the state it leaves:
    its own results when it returns, one error record when it raises. *)
Definition aporte (fuente : string)
    (funcion : string → M W (list (gmap string string)))
    (texto : string) (s : St W) : list (gmap string string) * St W :=
  match funcion texto s with
  | (Ok res, s') => (res, s')
  | (Raise e, s') => ([error_record fuente e], s')
  end.

(** The contributions of a list of sources, each source run from the state
    the one before it left, in list order. *)
Fixpoint aportes
    (srcs : list (string * (string → M W (list (gmap string string)))))
    (texto : string) (s : St W) : list (gmap string string) * St W :=
  match srcs with
  | [] => ([], s)
  | (fuente, funcion) :: rest =>
      let '(r1, s1) := aporte fuente funcion texto s in
      let '(r2, s2) := aportes rest texto s1 in
      (r1 ++ r2, s2)
  end.

End Aportes.

(** *** Scripted portals used as concrete inputs *)

Module Demo.

(** SATJE is down (its navigation raises); the Corte Constitucional page
    lists three links, two of them to the same address; the Corte Nacional
    page lists nothing. *)
Definition satje_caido : Fake.world := {|
  Fake.location := "about:blank";
  Fake.present := Fake.all_controls;
  Fake.containers := λ sel,
    if String.eqb sel ".list-group-item, .panel-body, tr, .resultado"
    then [Fake.item "Sentencia 1-20-IN" "https://cc.ec/1";
          Fake.item "Sentencia 1-20-IN (copia)" "https://cc.ec/1";
          Fake.item "Sentencia 7-21-EP" "https://cc.ec/7"]
    else [];
  Fake.broken := λ c,
    match c with
    | CGoto url _ _ =>
        if String.eqb url (satje default_URLS)
        then Some (Exn OtherException "net::ERR_CONNECTION_REFUSED")
        else None
    | _ => None
    end;
|}.


(** Every page loads, no form control is found. *)
Definition sin_formularios : Fake.world := {|
  Fake.location := "about:blank";
  Fake.present := [];
  Fake.containers := λ _, [];
  Fake.broken := Fake.never;
|}.

Definition payload : gmap string pyval := {[ "texto" := PStr " despido intempestivo " ]}.

(** What the judicial query answers on [satje_caido]. *)
Definition resultado_satje_caido : pyval :=
  PList
    [ PyVal.of_record
        {[ "fuente" := "Corte Constitucional";
           "titulo" := "Sentencia 1-20-IN";
           "descripcion" := "Relator" +:+ chr 237 +:+ "a Constitucional";
           "url" := "https://cc.ec/1" ]};
      PyVal.of_record
        {[ "fuente" := "Corte Constitucional";
           "titulo" := "Sentencia 7-21-EP";
           "descripcion" := "Relator" +:+ chr 237 +:+ "a Constitucional";
           "url" := "https://cc.ec/7" ]} ].

Definition respuesta_satje_caido : gmap string pyval :=
  {[ "mensaje" := PStr "Consulta completada para 'despido intempestivo'.";
     "nivel_consulta" := PStr "Jurisprudencia";
     "resultado" := resultado_satje_caido ]}.

Definition credenciales : fielweb_env := {|
  FIELWEB_URL := "https://www.fielweb.com/Cuenta/Login.aspx";
  USERNAME := "consultor@hygabogados.ec";
  PASSWORD := "secreto";
|}.

End Demo.

(** *** Payloads without a query text *)

(** The payload carries no query text under the keys [k1], [k2]: the first
    key holds a non-empty string of white space only, or it is absent (or
    null, or the empty string) and the second key is absent (or null) or
    holds a string that is empty once trimmed. *)
Definition en_blanco (payload : gmap string pyval) (k1 k2 : string) : bool :=
  let blank (v : pyval) : bool :=
    match v with
    | PNone => true
    | PStr s => String.eqb (PyStr.strip s) ""
    | _ => false
    end in
  match PyVal.get payload k1 with
  | PStr s =>
      if PyStr.truthy s then String.eqb (PyStr.strip s) ""
      else blank (PyVal.get payload k2)
  | PNone => blank (PyVal.get payload k2)
  | _ => false
  end.


Module DemoSelectores.

(** A page on which [#b] and [#c] match and probing [#a] raises. *)
Definition pagina : Fake.world := {|
  Fake.location := "about:blank";
  Fake.present := ["#b"; "#c"];
  Fake.containers := λ _, [];
  Fake.broken := λ c,
    match c with
    | CQuerySelector sel =>
        if String.eqb sel "#a"
        then Some (Exn OtherException "Unexpected token while parsing selector")
        else None
    | _ => None
    end;
|}.

End DemoSelectores.

Module DemoFielWeb.

(** Two result cards under the second container selector. *)
Definition tarjetas (sel : string) : list Fake.node :=
  if String.eqb sel ".card-body"
  then [ Fake.Nodo (Ok "Codigo del Trabajo") None
           [Fake.anchor "Descargar PDF" "/docs/ct.pdf";
            Fake.anchor "Concordancias" "/docs/ct/concordancias"];
         Fake.Nodo (Ok "Ley de Seguridad Social") None [] ]
  else [].

(** The portal never reaches network idle: every settle wait times out. *)
Definition espera_agotada : Fake.world := {|
  Fake.location := "about:blank";
  Fake.present := Fake.all_controls;
  Fake.containers := tarjetas;
  Fake.broken := λ c,
    if Fake.is_settle_wait c
    then Some (Exn PWTimeout "Timeout 35000ms exceeded.")
    else None;
|}.


End DemoFielWeb.


(** *** Titles *)

(** The title the judicial sources give a container, from what reading its
    text answered: [_safe_inner_text] turns an exception into the empty
    default. *)
Definition titulo_juris (inner : outcome string) : string :=
  match inner with
  | Ok t => juris_title t
  | Raise _ => ""
  end.

Module DemoTitulos.

Fixpoint repetir (n : nat) (c : ascii) : string :=
  match n with
  | O => EmptyString
  | S n' => String c (repetir n' c)
  end.

(** A single line of 141 letters. *)
Definition texto_largo : string := repetir 141 "a"%char.

(** A text that starts with a line feed. *)
Definition texto_con_salto : string := String PyStr.newline "Acuerdo 123".

(** SATJE lists one container with the long line; FielWeb lists one
    container whose text starts with a line feed. *)
Definition portal : Fake.world := {|
  Fake.location := "about:blank";
  Fake.present := Fake.all_controls;
  Fake.containers := λ sel,
    if String.eqb sel ".DataGridItemStyle, .card, tr, .resultado"
    then [Fake.item texto_largo "https://satje.ec/1"]
    else if String.eqb sel ".resultadoItem"
    then [Fake.Nodo (Ok texto_con_salto) None []]
    else [];
  Fake.broken := Fake.never;
|}.

End DemoTitulos.


(** *** The hybrid answer *)


Module DemoFuentes.







End DemoFuentes.


(** *** Shapes of the records the connectors produce *)

(** A record of the judicial source [fuente]: the four fields, with the
    title cut to 140 characters. *)
Definition registro_de (fuente descripcion : string) (r : gmap string string)
  : Prop :=
  ∃ titulo url,
    r = {[ "fuente" := fuente; "titulo" := titulo;
           "descripcion" := descripcion; "url" := url ]}
    ∧ String.length titulo ≤ 140.

(** What one judicial source returns: records of that source, each with a
    non-empty url, no two with the same url. *)
Definition registros_de (fuente descripcion : string)
    (rs : list (gmap string string)) : Prop :=
  Forall (registro_de fuente descripcion) rs
  ∧ Forall (λ r, ∃ u, r !! "url" = Some u ∧ u ≠ "") rs
  ∧ NoDup (key_values "url" rs).

Definition DESC_SATJE : string := "Sentencia registrada en SATJE".
Definition DESC_CC : string := "Relator" +:+ chr 237 +:+ "a Constitucional".
Definition DESC_CNJ : string := "Precedente o Relator" +:+ chr 237 +:+ "a CNJ".

(** A link of a FielWeb entry: its kind is one the classifier gives, its
    label is not empty and has no white space around it. *)
Definition enlace_ok (v : pyval) : Prop :=
  ∃ tipo texto url,
    v = PDict {[ "tipo" := PStr tipo; "texto" := PStr texto; "url" := PStr url ]}
    ∧ (tipo = "descarga" ∨ tipo = "otro")
    ∧ texto ≠ ""
    ∧ PyStr.strip texto = texto.

(** A FielWeb entry: a one-line title with no white space around it, and
    its links. *)
Definition entrada_ok (v : pyval) : Prop :=
  ∃ titulo enlaces,
    v = PDict {[ "titulo" := PStr titulo; "enlaces" := PList enlaces ]}
    ∧ PyStr.strip titulo = titulo
    ∧ PyStr.mem PyStr.newline titulo = false
    ∧ Forall enlace_ok enlaces.

(** *** Container selectors, as the extraction loop sees them *)

Section Containers.
Context {W Node : Type} `{!Browser W Node}.

(** The query for [sel] answers the empty list. *)
Definition yields_nothing (sel : string) (s : St W) : bool :=
  match fst (query_selector_all sel s) with
  | Ok [] => true
  | _ => false
  end.

(** Each query of [sels], made one after the other, answers the empty list. *)
Fixpoint all_empty (sels : list string) (s : St W) : bool :=
  match sels with
  | [] => true
  | sel :: rest =>
      yields_nothing sel s && all_empty rest (snd (query_selector_all sel s))
  end.

(** The state that querying [sels] one after the other leaves behind. *)
Fixpoint after_queries (sels : list string) (s : St W) : St W :=
  match sels with
  | [] => s
  | sel :: rest => after_queries rest (snd (query_selector_all sel s))
  end.

End Containers.

(** *** The form controls of the judicial portals *)

Definition SATJE_QUERY : list string :=
  ["#txtBuscar"; "input[id*=" +:+ quoted "Buscar" +:+ "]"].
Definition CORTE_QUERY : list string :=
  ["#txtPalabraClave"; "input[id*=" +:+ quoted "Palabra" +:+ "]"].
Definition BOTON_BUSCAR : list string :=
  ["#btnBuscar"; "button[id*=" +:+ quoted "btnBuscar" +:+ "]"].

Section SinFormulario.
Context {W Node : Type} `{!Browser W Node}.

(** On the page in state [s1], the query field or the search button is not
    found: every candidate of one of the two lists misses. *)
Definition sin_formulario (query boton : list string) (s1 : St W) : Prop :=
  all_miss query s1 = true
  ∨ all_miss boton (snd (_first_selector query s1)) = true.

End SinFormulario.

(** ** main.py: the single-connector endpoints and the key middleware *)

(** The environment of [fielweb_connector.py] when nothing is set: the
    password defaults to the empty string. *)
Definition default_ENV : fielweb_env := {|
  FIELWEB_URL := "https://www.fielweb.com/Cuenta/Login.aspx";
  USERNAME := "consultor@hygabogados.ec";
  PASSWORD := "";
|}.

Definition allowed_routes : list string :=
  ["/"; "/health"; "/favicon.ico"; "/check_fielweb_status"].

Section Endpoints.
Context {W Node : Type} `{!Browser W Node}.
Variable ENV : fielweb_env.
Variable URLS : urls.
Variable conectores : bool.



(** Reading a global name that no statement of the module binds raises
    [NameError]; the class is not one the handlers tell apart. *)
Definition unbound_name (name : string) : M W pyval :=
  Run.raise (Exn OtherException ("name '" +:+ name +:+ "' is not defined")).

(** [verify_api_key]: [API_KEY] is [os.getenv("X_API_KEY")], [path] and
    [headers] are the request's, [call_next] is the rest of the stack.
    [main.py] never assigns [API_KEY_DISABLED]. *)
Definition verify_api_key {A} (API_KEY : option string) (path : string)
    (headers : gmap string string) (call_next : M W A) : M W A :=
  pass <- (if bool_decide (path ∈ allowed_routes) then Run.ret true
           else
             disabled <- unbound_name "API_KEY_DISABLED" ;;
             Run.ret (PyVal.truthy disabled || negb (sel_truthy API_KEY))) ;;
  if (pass : bool) then call_next
  else
    let key := headers !! "X-API-Key" in
    if negb (bool_decide (key = API_KEY))
    then Run.raise (Exn (HTTPException 401)
                      ("API Key inv" +:+ chr 225 +:+ "lida o ausente."))
    else call_next.

End Endpoints.

Module DemoCierre.

(** The Corte Constitucional lists two rulings; closing the browser raises. *)
Definition cierre_roto : Fake.world := {|
  Fake.location := "about:blank";
  Fake.present := Fake.all_controls;
  Fake.containers := λ sel,
    if String.eqb sel ".list-group-item, .panel-body, tr, .resultado"
    then [Fake.item "Sentencia 1-20-IN" "https://cc.ec/1";
          Fake.item "Sentencia 7-21-EP" "https://cc.ec/7"]
    else [];
  Fake.broken := λ c,
    match c with
    | CBrowserClose => Some (Exn OtherException "Target closed")
    | _ => None
    end;
|}.

End DemoCierre.

Module DemoBlanco.

(** A request whose text is white space only. *)
Definition payload : gmap string pyval := {[ "texto" := PStr "   " ]}.

End DemoBlanco.

(** *** The form controls of FielWeb *)

Section SinControles.
Context {W Node : Type} `{!Browser W Node}.

(** The probes of the first [n] candidates of [sels]. *)
Definition probes (sels : list string) (n : nat) : list call :=
  CQuerySelector <$> take n sels.

(** On the login page in state [s1], one of the three login controls is not
    found: every candidate of one of the three lists misses. *)
Definition sin_login (s1 : St W) : Prop :=
  let s2 := snd (_first_selector LOGIN_SELECTORS_user s1) in
  let s3 := snd (_first_selector LOGIN_SELECTORS_password s2) in
  all_miss LOGIN_SELECTORS_user s1 = true
  ∨ all_miss LOGIN_SELECTORS_password s2 = true
  ∨ all_miss LOGIN_SELECTORS_submit s3 = true.

End SinControles.


(** * Theorems *)

(** ** Strings *)

Lemma truthy_spec (s : string) : PyStr.truthy s = true ↔ s ≠ "".
Proof.
  unfold PyStr.truthy. rewrite negb_true_iff.
  destruct (String.eqb_spec s ""); split; congruence.
Qed.

Lemma lower_char_not_upper (c : ascii) :
  let n := N_of_ascii (PyStr.lower_char c) in
  ((65 <=? n) && (n <=? 90))%N = false.
Proof.
  destruct c as [[] [] [] [] [] [] [] []]; vm_compute; reflexivity.
Qed.

Lemma mem_lower_upper (c : ascii) (s : string) :
  ((65 <=? N_of_ascii c) && (N_of_ascii c <=? 90))%N = true →
  PyStr.mem c (PyStr.lower s) = false.
Proof.
  intros Hc. induction s as [|d s IH]; simpl; [done|].
  rewrite IH, orb_false_r.
  destruct (Ascii.eqb_spec c (PyStr.lower_char d)) as [->|]; [|done].
  pose proof (lower_char_not_upper d) as Hd. simpl in Hd. congruence.
Qed.

Lemma prefix_head (c : ascii) (k t : string) :
  String.prefix (String c k) t = true → PyStr.mem c t = true.
Proof.
  destruct t as [|d t]; simpl; [done|].
  destruct (Ascii.ascii_dec c d) as [->|]; [|done].
  intros _. by rewrite Ascii.eqb_refl.
Qed.

Lemma contains_head (c : ascii) (k t : string) :
  PyStr.contains (String c k) t = true → PyStr.mem c t = true.
Proof.
  induction t as [|d t IH].
  - simpl. done.
  - cbn [PyStr.contains].
    destruct (String.prefix (String c k) (String d t)) eqn:Hp.
    + intros _. by apply prefix_head in Hp.
    + intros H. simpl. rewrite (IH H). apply orb_true_r.
Qed.

(** A keyword that starts with a capital letter never occurs in a
    lower-cased label. *)
Lemma capital_keyword_never_matches (c : ascii) (k texto : string) :
  ((65 <=? N_of_ascii c) && (N_of_ascii c <=? 90))%N = true →
  PyStr.contains (String c k) (PyStr.lower texto) = false.
Proof.
  intros Hc. destruct (PyStr.contains _ _) eqn:H; [|done].
  apply contains_head in H. by rewrite mem_lower_upper in H.
Qed.

(** ** Link classification *)

Lemma concordancias_never_match (texto : string) :
  any_in LABEL_CONCORDANCIAS (PyStr.lower texto) = false.
Proof.
  unfold any_in, LABEL_CONCORDANCIAS. cbn [existsb].
  by rewrite !capital_keyword_never_matches.
Qed.

Lemma juris_never_match (texto : string) :
  any_in LABEL_JURIS (PyStr.lower texto) = false.
Proof.
  unfold any_in, LABEL_JURIS. cbn [existsb].
  by rewrite !capital_keyword_never_matches.
Qed.

(** C3 (the code departs from the claim).  The label is lower-cased but the
    concordance and jurisprudence keywords are spelled with a capital
    letter, so neither test can succeed: the label "Concordancia" is
    classified "otro", and so is "Sentencia"; for every label the classifier
    answers "descarga" exactly when the lower-cased label contains a
    download keyword, and "otro" otherwise. *)
Theorem classify_link_on_concordancia :
  _classify_link "Concordancia" = "otro"
  ∧ _classify_link "Sentencia" = "otro"
  ∧ _classify_link "Concordancias.pdf" = "descarga"
  ∧ ∀ texto,
      _classify_link texto =
        if any_in DOWNLOAD_FILTERS (PyStr.lower texto) then "descarga" else "otro".
Proof.
  split; [reflexivity|]. split; [reflexivity|]. split; [reflexivity|].
  intros texto. unfold _classify_link. cbv zeta.
  by rewrite concordancias_never_match, juris_never_match.
Qed.

(** ** Deduplication *)

Section Dedup.
Variable key : string.
Implicit Types (items rest pre : list (gmap string string)) (seen : gset string).

Lemma omap_cons_eq {A B} (f : A → option B) (x : A) (l : list A) :
  omap f (x :: l) = match f x with Some y => y :: omap f l | None => omap f l end.
Proof. reflexivity. Qed.

Lemma dedup_loop_out rest seen out :
  dedup_loop key rest seen out = out ++ dedup_loop key rest seen [].
Proof.
  revert seen out. induction rest as [|i rest IH]; intros seen out; simpl.
  - by rewrite app_nil_r.
  - destruct (i !! key) as [val|]; [|apply IH].
    destruct (PyStr.truthy val && bool_decide (val ∉ seen)); [|apply IH].
    rewrite IH, (IH _ [i]). by rewrite <- app_assoc.
Qed.

Lemma elem_of_keys_seen v items :
  v ∈ keys_seen key items ↔ ∃ r, r ∈ items ∧ r !! key = Some v ∧ v ≠ "".
Proof.
  unfold keys_seen. rewrite elem_of_list_to_set, list_elem_of_omap.
  split.
  - intros (r & Hr & Hv). exists r. split; [done|].
    destruct (r !! key) as [w|]; [|done].
    destruct (PyStr.truthy w) eqn:Ht; [|done].
    injection Hv as ->. split; [done|]. by apply truthy_spec.
  - intros (r & Hr & Hk & Hne). exists r. split; [done|].
    rewrite Hk. apply truthy_spec in Hne. by rewrite Hne.
Qed.

Lemma keys_seen_snoc pre i :
  keys_seen key (pre ++ [i]) =
    keys_seen key pre ∪
      match i !! key with
      | Some v => if PyStr.truthy v then {[v]} else ∅
      | None => ∅
      end.
Proof.
  unfold keys_seen. rewrite omap_app, list_to_set_app_L. f_equal.
  simpl. destruct (i !! key) as [v|]; [|done].
  destruct (PyStr.truthy v); simpl; [|done]. set_solver.
Qed.

Lemma key_is_new_middle pre i rest :
  key_is_new key (pre ++ i :: rest) (length pre) =
    match i !! key with
    | Some v => PyStr.truthy v && bool_decide (v ∉ keys_seen key pre)
    | None => false
    end.
Proof.
  unfold key_is_new. rewrite list_lookup_middle by done.
  destruct (i !! key) as [v|]; [|done].
  rewrite take_app_length.
  destruct (PyStr.truthy v) eqn:Ht; simpl; [|done].
  apply truthy_spec in Ht.
  destruct (forallb _ pre) eqn:Hf; symmetry.
  - apply bool_decide_eq_true. rewrite elem_of_keys_seen.
    intros (r & Hr & Hk & _).
    rewrite forallb_forall in Hf. apply list_elem_of_In, Hf in Hr.
    by apply bool_decide_eq_true in Hr.
  - apply bool_decide_eq_false. intros Hnot.
    assert (forallb (λ r', bool_decide (r' !! key ≠ Some v)) pre = true) as Hall;
      [|congruence].
    apply forallb_forall. intros r Hr%list_elem_of_In.
    apply bool_decide_eq_true. intros Hk. apply Hnot.
    apply elem_of_keys_seen. eauto.
Qed.

(** The loop, started after the prefix [pre] with the keys of [pre] seen,
    keeps exactly the positions of [rest] that the specification keeps. *)
Lemma dedup_loop_spec rest pre :
  dedup_loop key rest (keys_seen key pre) [] =
    omap (λ n, if key_is_new key (pre ++ rest) n then (pre ++ rest) !! n else None)
         (seq (length pre) (length rest)).
Proof.
  revert pre. induction rest as [|i rest IH]; intros pre; [done|].
  change (seq (length pre) (length (i :: rest)))
    with (length pre :: seq (S (length pre)) (length rest)).
  rewrite omap_cons_eq. cbn [dedup_loop].
  rewrite key_is_new_middle, list_lookup_middle by done.
  specialize (IH (pre ++ [i])).
  rewrite keys_seen_snoc, <- app_assoc, length_app, Nat.add_1_r in IH.
  cbn [app length] in IH.
  destruct (i !! key) as [v|].
  - destruct (PyStr.truthy v); simpl.
    + destruct (bool_decide (v ∉ keys_seen key pre)) eqn:Hd.
      * rewrite dedup_loop_out. cbn [app]. f_equal. rewrite <- IH.
        f_equal. set_solver.
      * rewrite <- IH. f_equal.
        apply bool_decide_eq_false in Hd. apply dec_stable in Hd. set_solver.
    + rewrite <- IH. f_equal. set_solver.
  - rewrite <- IH. f_equal. set_solver.
Qed.

Lemma dedup_loop_sublist rest seen :
  sublist (dedup_loop key rest seen []) rest.
Proof.
  revert seen. induction rest as [|i rest IH]; intros seen; simpl; [done|].
  destruct (i !! key) as [val|]; [|by apply sublist_cons].
  destruct (PyStr.truthy val && bool_decide (val ∉ seen)); [|by apply sublist_cons].
  rewrite dedup_loop_out. by apply sublist_skip.
Qed.

Lemma elem_of_key_values v items :
  v ∈ key_values key items ↔ ∃ r, r ∈ items ∧ r !! key = Some v.
Proof. unfold key_values. by rewrite list_elem_of_omap. Qed.

Lemma union_swap_l (X V S : gset string) : V ∪ X ∪ S = X ∪ (V ∪ S).
Proof. set_solver. Qed.

Lemma keys_seen_cons i rest :
  keys_seen key (i :: rest) =
    match i !! key with
    | Some v => if PyStr.truthy v then {[v]} else ∅
    | None => ∅
    end ∪ keys_seen key rest.
Proof.
  unfold keys_seen. rewrite omap_cons_eq.
  destruct (i !! key) as [v|]; [|set_solver].
  destruct (PyStr.truthy v); [done|set_solver].
Qed.

(** What the loop keeps: non-empty keys, not seen before, pairwise
    distinct, and together with [seen] all the keys of the input. *)
Lemma dedup_loop_keys rest seen :
  let res := dedup_loop key rest seen [] in
  Forall (λ r, ∃ v, r !! key = Some v ∧ v ≠ "" ∧ v ∉ seen) res
  ∧ NoDup (key_values key res)
  ∧ list_to_set (key_values key res) ∪ seen = keys_seen key rest ∪ seen.
Proof.
  revert seen. induction rest as [|i rest IH]; intros seen.
  - split; [constructor|]. split; [constructor|]. done.
  - rewrite keys_seen_cons. cbn [dedup_loop]. cbv zeta.
    destruct (i !! key) as [val|] eqn:Hk.
    + destruct (PyStr.truthy val) eqn:Ht; cbn [andb].
      * destruct (bool_decide (val ∉ seen)) eqn:Hd.
        -- apply bool_decide_eq_true in Hd.
           destruct (IH ({[val]} ∪ seen)) as (Hall & Hnd & Hset).
           rewrite dedup_loop_out. cbn [app].
           set (res := dedup_loop key rest ({[val]} ∪ seen) []) in *.
           clearbody res. clear IH.
           assert (val ∉ key_values key res) as Hfresh.
           { rewrite elem_of_key_values. intros (r & Hr & Hr').
             rewrite Forall_forall in Hall.
             destruct (Hall r Hr) as (v & Hv & _ & Hnot).
             assert (v = val) as -> by congruence.
             apply Hnot. apply elem_of_union_l. by apply elem_of_singleton. }
           split; [|split].
           ++ constructor.
              ** exists val. split; [done|]. split; [|done]. by apply truthy_spec.
              ** eapply Forall_impl; [exact Hall|]. cbv beta.
                 intros r (v & ? & ? & Hn). exists v. split; [done|]. split; [done|].
                 intros ?. apply Hn. by apply elem_of_union_r.
           ++ unfold key_values. rewrite omap_cons_eq, Hk. by constructor.
           ++ unfold key_values. rewrite omap_cons_eq, Hk.
              rewrite list_to_set_cons. fold (key_values key res).
              rewrite !(union_swap_l _ {[val]}). exact Hset.
        -- apply bool_decide_eq_false in Hd. apply dec_stable in Hd.
           destruct (IH seen) as (Hall & Hnd & Hset).
           split; [done|]. split; [done|].
           rewrite Hset. clear -Hd. set_solver.
      * destruct (IH seen) as (Hall & Hnd & Hset).
        split; [done|]. split; [done|]. by rewrite (left_id_L ∅ (∪)).
    + destruct (IH seen) as (Hall & Hnd & Hset).
      split; [done|]. split; [done|]. by rewrite (left_id_L ∅ (∪)).
Qed.
End Dedup.

Lemma dedup_keys_nonempty items key :
  Forall (λ r, ∃ v, r !! key = Some v ∧ v ≠ "") (_dedup items key).
Proof.
  destruct (dedup_loop_keys key items ∅) as (Hall & _).
  eapply Forall_impl; [exact Hall|]. simpl. intros r (v & ? & ? & _). eauto.
Qed.

Lemma dedup_keys_NoDup items key :
  NoDup (key_values key (_dedup items key)).
Proof. by destruct (dedup_loop_keys key items ∅) as (_ & ? & _). Qed.

(** The deduplicated list has one record for each distinct non-empty key
    value of the input. *)
Lemma dedup_length items key :
  length (_dedup items key) = size (keys_seen key items).
Proof.
  destruct (dedup_loop_keys key items ∅) as (Hall & Hnd & Hset).
  fold (_dedup items key) in *.
  rewrite !(right_id_L ∅ (∪)) in Hset. rewrite <- Hset.
  rewrite size_list_to_set by done.
  clear Hnd Hset. induction Hall as [|r l (v & Hv & _) _ IH]; [done|].
  unfold key_values in *. rewrite omap_cons_eq, Hv. simpl. by rewrite IH.
Qed.

(** C4.  For every list of records and every key field, [_dedup] returns the
    records at exactly those positions whose key is present and non-empty
    and does not occur at an earlier position ([dedup_spec]); the result is
    a subsequence of the input in its original order; no record with an
    empty or absent key is in it; and its key values are pairwise
    distinct. *)
Theorem dedup_keeps_first_occurrences
    (items : list (gmap string string)) (key : string) :
  _dedup items key = dedup_spec items key
  ∧ sublist (_dedup items key) items
  ∧ Forall (λ r, ∃ v, r !! key = Some v ∧ v ≠ "") (_dedup items key)
  ∧ NoDup (key_values key (_dedup items key)).
Proof.
  split; [|split; [|split]].
  - unfold _dedup, dedup_spec.
    change (∅ : gset string) with (keys_seen key []).
    by rewrite (dedup_loop_spec key items []).
  - apply dedup_loop_sublist.
  - apply dedup_keys_nonempty.
  - apply dedup_keys_NoDup.
Qed.

(** ** The selector resolver *)

Section FirstSelector.
Context {W Node : Type} `{!Browser W Node}.

Lemma first_selector_cons (sel : string) (rest : list string) (s : St W) :
  _first_selector (sel :: rest) s =
    if probe_hits sel s then (Ok (Some sel), snd (query_selector sel s))
    else _first_selector rest (snd (query_selector sel s)).
Proof.
  cbn [_first_selector].
  unfold Run.bind, Run.try_except, Run.except_Exception, Run.ret, probe_hits.
  destruct (query_selector sel s) as [[[n|]|e] s1]; reflexivity.
Qed.

(** C2.  For every page state and every candidate list, [_first_selector]
    returns normally.  When it returns a selector, the list splits as
    [pre ++ sel :: post] where no probe of [pre], made in list order, found a
    node (a probe that raised counts as not finding one), the probe of [sel]
    made right after them found one, and nothing after [sel] was probed.
    When it returns [None], every candidate was probed in order and none
    found a node. *)
Theorem first_selector_returns_first_match (selectors : list string) (s : St W) :
  ∃ r s', _first_selector selectors s = (Ok r, s')
    ∧ match r with
      | Some sel =>
          ∃ pre post, selectors = pre ++ sel :: post
                      ∧ all_miss pre s = true
                      ∧ probe_hits sel (after_probes pre s) = true
                      ∧ s' = after_probes (pre ++ [sel]) s
      | None => all_miss selectors s = true ∧ s' = after_probes selectors s
      end.
Proof.
  revert s. induction selectors as [|c rest IH]; intros s.
  - exists None, s. by split.
  - rewrite first_selector_cons. destruct (probe_hits c s) eqn:Hc.
    + exists (Some c), (snd (query_selector c s)). split; [done|].
      exists [], rest. by repeat split.
    + destruct (IH (snd (query_selector c s))) as (r & s' & Hrun & Hr).
      exists r, s'. split; [done|]. destruct r as [sel|].
      * destruct Hr as (pre & post & -> & Hmiss & Hhit & ->).
        exists (c :: pre), post. repeat split; [|done].
        cbn [all_miss]. by rewrite Hc, Hmiss.
      * destruct Hr as [Hmiss ->]. split; [|done].
        cbn [all_miss]. by rewrite Hc, Hmiss.
Qed.

End FirstSelector.

(** Three candidates: probing the first raises, the second and the third
    both match.  The second is returned, and the third is never probed. *)
Example first_selector_skips_raising_probe :
  _first_selector ["#a"; "#b"; "#c"] (Fake.start DemoSelectores.pagina)
  = (Ok (Some "#b"),
     MkSt DemoSelectores.pagina [CQuerySelector "#a"; CQuerySelector "#b"]).
Proof. reflexivity. Qed.

(** ** Failure isolation in the orchestration loop *)

Section Isolation.
Context {W Node : Type} `{!Browser W Node}.

Lemma consultar_fuentes_aportes
    (srcs : list (string * (string → M W (list (gmap string string)))))
    (texto : string) (acc : list (gmap string string)) (s : St W) :
  consultar_fuentes srcs texto acc s =
    (Ok (acc ++ fst (aportes srcs texto s)), snd (aportes srcs texto s)).
Proof.
  revert acc s. induction srcs as [|[fuente funcion] rest IH]; intros acc s.
  - cbn. by rewrite app_nil_r.
  - unfold consultar_fuentes in *. cbn [Run.for_each aportes].
    unfold Run.bind at 1. unfold Run.try_except, Run.except_Exception, aporte.
    unfold Run.bind at 1. unfold Run.ret at 1 2.
    destruct (funcion texto s) as [[res|e] s1]; rewrite IH;
      destruct (aportes rest texto s1) as [r2 s2]; cbn [fst snd];
      by rewrite <- app_assoc.
Qed.


End Isolation.

(** SATJE raises on navigation: its contribution is the error record, and
    the two other sources are still visited, in declaration order. *)
Example satje_caido_no_detiene_las_otras :
  let run := aportes (fuentes default_URLS) "despido"
               (Fake.start Demo.satje_caido) in
  fst run
  = [ error_record "SATJE" (Exn OtherException "net::ERR_CONNECTION_REFUSED");
      {[ "fuente" := "Corte Constitucional";
         "titulo" := "Sentencia 1-20-IN";
         "descripcion" := "Relator" +:+ chr 237 +:+ "a Constitucional";
         "url" := "https://cc.ec/1" ]};
      {[ "fuente" := "Corte Constitucional";
         "titulo" := "Sentencia 7-21-EP";
         "descripcion" := "Relator" +:+ chr 237 +:+ "a Constitucional";
         "url" := "https://cc.ec/7" ]} ]
  ∧ List.filter Fake.is_goto (log (snd run))
    = [ CGoto (satje default_URLS) "domcontentloaded" NAV_TIMEOUT_MS;
        CGoto (corte_constitucional default_URLS) "domcontentloaded" NAV_TIMEOUT_MS;
        CGoto (corte_nacional default_URLS) "domcontentloaded" NAV_TIMEOUT_MS ].
Proof. cbv zeta. split; vm_compute; reflexivity. Qed.

(** ** Reasoning about runs *)

Section Runs.
Context {W : Type}.

Lemma bind_Ok_inv {A B} (m : M W A) (k : A → M W B) (s s' : St W) (b : B) :
  Run.bind m k s = (Ok b, s') →
  ∃ a s1, m s = (Ok a, s1) ∧ k a s1 = (Ok b, s').
Proof.
  unfold Run.bind. destruct (m s) as [[a|e] s1]; [|discriminate]. eauto.
Qed.

Lemma try_finally_Ok_inv {A} (m : M W A) (fin : M W unit) (s s' : St W) (a : A) :
  Run.try_finally m fin s = (Ok a, s') →
  ∃ s1, m s = (Ok a, s1) ∧ fin s1 = (Ok tt, s').
Proof.
  unfold Run.try_finally. destruct (m s) as [r s1].
  destruct (fin s1) as [[[]|e] s2] eqn:Hfin; [|discriminate].
  intros [= -> ->]. eauto.
Qed.

(** A loop whose body appends exactly one element appends one element for
    each item it is run on. *)
Lemma for_each_appends_one {X R} (body : X → list R → M W (list R)) :
  (∀ x acc s out s', body x acc s = (Ok out, s') → length out = S (length acc)) →
  ∀ xs acc s out s',
    Run.for_each xs body acc s = (Ok out, s') →
    length out = length acc + length xs.
Proof.
  intros Hbody xs. induction xs as [|x xs IH]; intros acc s out s' Hrun.
  - injection Hrun as <- <-. simpl. lia.
  - cbn [Run.for_each] in Hrun.
    apply bind_Ok_inv in Hrun as (mid & s1 & Hx & Hrest).
    apply Hbody in Hx. apply IH in Hrest. simpl. lia.
Qed.

(** A loop whose body only appends elements that satisfy [P] only appends
    elements that satisfy [P]. *)
Lemma for_each_appends {X R} (P : R → Prop) (body : X → list R → M W (list R)) :
  (∀ x acc s out s', body x acc s = (Ok out, s') →
                     ∃ news, out = acc ++ news ∧ Forall P news) →
  ∀ xs acc s out s',
    Run.for_each xs body acc s = (Ok out, s') →
    ∃ news, out = acc ++ news ∧ Forall P news.
Proof.
  intros Hbody xs. induction xs as [|x xs IH]; intros acc s out s' Hrun.
  - injection Hrun as <- <-. exists []. by rewrite app_nil_r.
  - cbn [Run.for_each] in Hrun.
    apply bind_Ok_inv in Hrun as (mid & s1 & Hx & Hrest).
    apply Hbody in Hx as (n1 & -> & H1). apply IH in Hrest as (n2 & -> & H2).
    exists (n1 ++ n2). rewrite app_assoc. split; [done|]. by apply Forall_app.
Qed.

End Runs.

(** ** The bound on the result list *)

Lemma key_values_take_NoDup key n (l : list (gmap string string)) :
  NoDup (key_values key l) → NoDup (key_values key (take n l)).
Proof.
  intros Hnd. rewrite <- (take_drop n l) in Hnd.
  unfold key_values in *. rewrite omap_app in Hnd.
  by apply NoDup_app in Hnd as (? & _).
Qed.

Section Bound.
Context {W Node : Type} `{!Browser W Node}.

Lemma extraer_nodo_appends_one (node : Node) (acc : list pyval) (s : St W) out s' :
  extraer_nodo node acc s = (Ok out, s') → length out = S (length acc).
Proof.
  unfold extraer_nodo. intros Hrun.
  apply bind_Ok_inv in Hrun as (inner & s1 & _ & Hrun).
  apply bind_Ok_inv in Hrun as (links & s2 & _ & Hrun).
  apply bind_Ok_inv in Hrun as (enlaces & s3 & _ & Hrun).
  injection Hrun as <- <-. rewrite length_app. simpl. lia.
Qed.

Lemma extraer_resultados_bounded (sels : list string) (s s' : St W) out :
  extraer_resultados sels s = (Ok out, s') → length out ≤ MAX_ITEMS.
Proof.
  revert s. induction sels as [|sel rest IH]; intros s Hrun.
  - injection Hrun as <- <-. simpl. lia.
  - cbn [extraer_resultados] in Hrun.
    apply bind_Ok_inv in Hrun as (nodes & s1 & _ & Hrun).
    destruct nodes as [|n nodes]; [by eapply IH|].
    apply (for_each_appends_one _ extraer_nodo_appends_one) in Hrun.
    rewrite Hrun, length_take. unfold MAX_ITEMS. cbn [length]. lia.
Qed.

Lemma buscar_bounded (texto : string) (s s' : St W) out :
  _buscar texto s = (Ok out, s') → length out ≤ MAX_ITEMS.
Proof.
  unfold _buscar. intros Hrun.
  apply bind_Ok_inv in Hrun as (q_sel & s1 & _ & Hrun).
  apply bind_Ok_inv in Hrun as (b_sel & s2 & _ & Hrun).
  destruct (negb _); [discriminate|].
  apply bind_Ok_inv in Hrun as (? & s3 & _ & Hrun).
  apply bind_Ok_inv in Hrun as (? & s4 & _ & Hrun).
  apply bind_Ok_inv in Hrun as (? & s5 & _ & Hrun).
  by eapply extraer_resultados_bounded.
Qed.

(** C5.  For every query and every state of the outside world, the
    resultado list of the judicial orchestrator is the first [MAX_ITEMS = 10]
    records of the deduplicated merged list: it has at most 10 records, its
    urls are pairwise distinct, and its length is the smaller of 10 and the
    number of distinct non-empty urls of the merged list, so exactly 10
    records are returned whenever the merged list holds more than 10
    distinct urls, however many duplicates it holds.  The list [_buscar]
    returns for FielWeb has at most 10 entries as well. *)
Theorem resultado_truncated_after_dedup (URLS : urls) (texto : string) (s : St W) :
  let merged := fst (aportes (fuentes URLS) texto s) in
  let rs := take MAX_ITEMS (_dedup merged "url") in
  fst (juris_try_body URLS texto s) =
    Ok {[ "mensaje" := PStr ("Consulta completada para '" +:+ texto +:+ "'.");
          "nivel_consulta" := PStr "Jurisprudencia";
          "resultado" := PList (PyVal.of_record <$> rs) ]}
  ∧ length rs ≤ 10
  ∧ length rs = 10 `min` size (keys_seen "url" merged)
  ∧ NoDup (key_values "url" rs)
  ∧ match fst (_buscar texto s) with
    | Ok data => length data ≤ 10
    | Raise _ => True
    end.
Proof.
  intros merged rs. split; [|split; [|split; [|split]]].
  - unfold juris_try_body, Run.bind. by rewrite consultar_fuentes_aportes.
  - unfold rs. rewrite length_take. unfold MAX_ITEMS. lia.
  - unfold rs. by rewrite length_take, dedup_length.
  - apply key_values_take_NoDup, dedup_keys_NoDup.
  - destruct (_buscar texto s) as [[data|e] s'] eqn:Hrun; [|done].
    by apply buscar_bounded in Hrun.
Qed.

End Bound.

(** ** What the judicial query returns *)

Section Resultado.
Context {W Node : Type} `{!Browser W Node}.

Lemma juris_try_body_eq (URLS : urls) (texto : string) (s : St W) :
  juris_try_body URLS texto s =
    (Ok {[ "mensaje" := PStr ("Consulta completada para '" +:+ texto +:+ "'.");
           "nivel_consulta" := PStr "Jurisprudencia";
           "resultado" :=
             PList (PyVal.of_record <$>
                      take MAX_ITEMS
                        (_dedup (fst (aportes (fuentes URLS) texto s)) "url")) ]},
     snd (aportes (fuentes URLS) texto s)).
Proof. unfold juris_try_body, Run.bind. by rewrite consultar_fuentes_aportes. Qed.

Lemma buscar_juris_async_Ok_inv (URLS : urls) (texto : string) (s s' : St W) d :
  PyStr.truthy texto = true →
  _buscar_juris_async URLS texto s = (Ok d, s') →
  ∃ s0, juris_try_body URLS texto s0 = (Ok d, snd (juris_try_body URLS texto s0)).
Proof.
  intros Ht. unfold _buscar_juris_async, async_with_playwright. rewrite Ht.
  cbn [negb]. intros Hrun.
  apply bind_Ok_inv in Hrun as (? & s1 & _ & Hrun).
  apply try_finally_Ok_inv in Hrun as (s2 & Hrun & _).
  apply bind_Ok_inv in Hrun as (? & s3 & _ & Hrun).
  apply try_finally_Ok_inv in Hrun as (s4 & Hrun & _).
  exists s3. by rewrite Hrun.
Qed.

(** The dictionary [consultar_jurisprudencia] returns has a resultado key
    only when it is the dictionary of the [try] body. *)
Lemma consultar_jurisprudencia_resultado (URLS : urls)
    (payload : gmap string pyval) (s s' : St W) d v :
  consultar_jurisprudencia URLS payload s = (Ok d, s') →
  d !! "resultado" = Some v →
  ∃ texto s0,
    v = PList (PyVal.of_record <$>
                 take MAX_ITEMS
                   (_dedup (fst (aportes (fuentes URLS) texto s0)) "url")).
Proof.
  unfold consultar_jurisprudencia. intros Hrun Hv.
  apply bind_Ok_inv in Hrun as (texto & s1 & _ & Hrun).
  destruct (PyStr.truthy texto) eqn:Ht; cbn [negb] in Hrun.
  - unfold Run.try_except, Run.except_PWTimeout_then_Exception in Hrun.
    destruct (_buscar_juris_async URLS texto s1) as [[d0|e] s2] eqn:Hasync.
    + injection Hrun as -> ->.
      apply buscar_juris_async_Ok_inv in Hasync as (s0 & Hbody); [|done].
      rewrite juris_try_body_eq in Hbody. injection Hbody as <-.
      exists texto, s0. by simplify_map_eq.
    + destruct (is_PWTimeout e); injection Hrun as <- <-; by simplify_map_eq.
  - injection Hrun as <- <-. by simplify_map_eq.
Qed.

Lemma error_record_no_url (fuente : string) (e : exn) :
  error_record fuente e !! "url" = None.
Proof. unfold error_record. by simplify_map_eq. Qed.

(** C10.  Whenever the judicial query returns a dictionary with a resultado
    key, that value is a list of records each of which has a non-empty url
    field, and no error record of any source is among them. *)
Theorem resultado_records_have_url (URLS : urls)
    (payload : gmap string pyval) (s : St W) d v :
  fst (consultar_jurisprudencia URLS payload s) = Ok d →
  d !! "resultado" = Some v →
  ∃ rs, v = PList (PyVal.of_record <$> rs)
        ∧ Forall (λ r, ∃ u, r !! "url" = Some u ∧ u ≠ "") rs
        ∧ ∀ fuente e, error_record fuente e ∉ rs.
Proof.
  intros Hrun Hv.
  destruct (consultar_jurisprudencia URLS payload s) as [r s'] eqn:Hr.
  cbn [fst] in Hrun. subst r.
  destruct (consultar_jurisprudencia_resultado _ _ _ _ _ _ Hr Hv)
    as (texto & s0 & ->).
  eexists. split; [done|].
  assert (Forall (λ r : gmap string string, ∃ u, r !! "url" = Some u ∧ u ≠ "")
            (take MAX_ITEMS (_dedup (fst (aportes (fuentes URLS) texto s0)) "url")))
    as Hall by apply Forall_take, dedup_keys_nonempty.
  split; [done|]. intros fuente e Hin.
  rewrite Forall_forall in Hall. destruct (Hall _ Hin) as (u & Hu & _).
  by rewrite error_record_no_url in Hu.
Qed.

End Resultado.

Lemma resultado_records_have_url_witness :
  ∃ rs, Demo.resultado_satje_caido = PList (PyVal.of_record <$> rs)
        ∧ Forall (λ r, ∃ u, r !! "url" = Some u ∧ u ≠ "") rs
        ∧ ∀ fuente e, error_record fuente e ∉ rs.
Proof.
  apply (resultado_records_have_url default_URLS Demo.payload
           (Fake.start Demo.satje_caido) Demo.respuesta_satje_caido);
    vm_compute; reflexivity.
Defined.

(** ** Payloads without a query text *)

Lemma en_blanco_texto_de (payload : gmap string pyval) (k1 k2 : string) :
  en_blanco payload k1 k2 = true →
  texto_de (PyVal.get payload k1) (PyVal.get payload k2) = Ok "".
Proof.
  unfold en_blanco, texto_de, PyVal.or_else.
  destruct (PyVal.get payload k1) as [| | |s1| |]; try discriminate.
  - cbn [PyVal.truthy].
    destruct (PyVal.get payload k2) as [| | |s2| |]; try discriminate.
    + done.
    + intros Hb%String.eqb_eq. cbn [PyVal.truthy].
      destruct (PyStr.truthy s2) eqn:Ht; [by rewrite Hb|].
      by destruct s2.
  - cbn [PyVal.truthy]. destruct (PyStr.truthy s1) eqn:Ht1.
    + by intros ->%String.eqb_eq.
    + destruct (PyVal.get payload k2) as [| | |s2| |]; try discriminate.
      * done.
      * intros Hb%String.eqb_eq. cbn [PyVal.truthy].
        destruct (PyStr.truthy s2) eqn:Ht; [by rewrite Hb|]. done.
Qed.

Section Blank.
Context {W Node : Type} `{!Browser W Node}.

(** C8.  For every payload that carries no query text and every state of
    the outside world, both public entry points return the dictionary with
    the single key error and its explanatory message; they return it in the
    state they were called in: no call on the browser was made. *)
Theorem blank_query_is_rejected (ENV : fielweb_env) (URLS : urls)
    (payload : gmap string pyval) (s : St W) :
  en_blanco payload "texto" "consulta" = true →
  en_blanco payload "texto" "palabras_clave" = true →
  consultar_fielweb ENV payload s =
    (Ok {[ "error" := PStr ("Debe proporcionar un texto de b" +:+ chr 250
                            +:+ "squeda en 'texto' o 'consulta'.") ]}, s)
  ∧ consultar_jurisprudencia URLS payload s =
      (Ok {[ "error" := PStr ("Debe proporcionar un texto v" +:+ chr 225
                              +:+ "lido para b" +:+ chr 250 +:+ "squeda.") ]}, s).
Proof.
  intros H1 H2. split.
  - unfold consultar_fielweb, Run.bind, Run.lift.
    by rewrite (en_blanco_texto_de _ _ _ H1).
  - unfold consultar_jurisprudencia, Run.bind, Run.lift.
    by rewrite (en_blanco_texto_de _ _ _ H2).
Qed.

End Blank.

Lemma blank_query_is_rejected_witness :
  en_blanco {[ "texto" := PStr "   " ]} "texto" "consulta" = true
  ∧ en_blanco {[ "texto" := PStr "   " ]} "texto" "palabras_clave" = true
  ∧ consultar_fielweb Demo.credenciales {[ "texto" := PStr "   " ]}
      (Fake.start Demo.satje_caido)
    = (Ok {[ "error" := PStr ("Debe proporcionar un texto de b" +:+ chr 250
                              +:+ "squeda en 'texto' o 'consulta'.") ]},
       Fake.start Demo.satje_caido)
  ∧ consultar_jurisprudencia default_URLS {[ "texto" := PStr "   " ]}
      (Fake.start Demo.satje_caido)
    = (Ok {[ "error" := PStr ("Debe proporcionar un texto v" +:+ chr 225
                              +:+ "lido para b" +:+ chr 250 +:+ "squeda.") ]},
       Fake.start Demo.satje_caido).
Proof.
  split; [reflexivity|]. split; [reflexivity|].
  apply (blank_query_is_rejected Demo.credenciales default_URLS
           {[ "texto" := PStr "   " ]} (Fake.start Demo.satje_caido));
    reflexivity.
Defined.

(** ** Settle timeouts *)

Section Settle.
Context {W Node : Type} `{!Browser W Node}.


Lemma settle_on_idle (grace : N) (s s1 : St W) :
  wait_for_load_state s = (Ok tt, s1) → settle grace s = (Ok tt, s1).
Proof. intros Hw. unfold settle, Run.try_except. by rewrite Hw. Qed.

Lemma log_emit (c : call) (s : St W) :
  log (snd (emit c s)) = log s ++ [c].
Proof. unfold emit, logged. by destruct (command c (world s)). Qed.



End Settle.

Section SettleFlows.
Context {W Node : Type} `{!Browser W Node}.



End SettleFlows.


(** The whole FielWeb flow on that portal: login and search both meet a
    timed-out settle wait, and the query still returns its two entries. *)
Example fielweb_pese_a_esperas_agotadas :
  fst (fielweb_try_body Demo.credenciales "codigo"
         (Fake.start DemoFielWeb.espera_agotada))
  = Ok {[ "mensaje" := PStr "Resultados para 'codigo'";
          "nivel_consulta" := PStr "FielWeb";
          "resultado" :=
            PList
              [ PDict {[ "titulo" := PStr "Codigo del Trabajo";
                         "enlaces" :=
                           PList
                             [ PDict {[ "tipo" := PStr "descarga";
                                        "texto" := PStr "Descargar PDF";
                                        "url" := PStr "/docs/ct.pdf" ]};
                               PDict {[ "tipo" := PStr "otro";
                                        "texto" := PStr "Concordancias";
                                        "url" := PStr "/docs/ct/concordancias" ]} ] ]};
                PDict {[ "titulo" := PStr "Ley de Seguridad Social";
                         "enlaces" := PList [] ]} ] ]}
  ∧ List.filter (λ c, match c with
                      | CWaitForLoadState _ _ | CWaitForTimeout _ => true
                      | _ => false
                      end)
      (log (snd (fielweb_try_body Demo.credenciales "codigo"
                   (Fake.start DemoFielWeb.espera_agotada))))
    = [ CWaitForLoadState "networkidle" NAV_TIMEOUT_MS; CWaitForTimeout 2000;
        CWaitForTimeout 2500;
        CWaitForLoadState "networkidle" NAV_TIMEOUT_MS; CWaitForTimeout 2000 ].
Proof. split; vm_compute; reflexivity. Qed.


(** ** Titles *)

Lemma slice_to_short (n : nat) (s : string) :
  String.length s ≤ n → PyStr.slice_to n s = s.
Proof.
  revert n. induction s as [|c s IH]; intros n Hn.
  - by destruct n.
  - destruct n as [|n]; simpl in *; [lia|]. rewrite IH; [done|lia].
Qed.

Lemma slice_to_length (n : nat) (s : string) :
  String.length (PyStr.slice_to n s) ≤ n.
Proof.
  revert n. induction s as [|c s IH]; intros n.
  - destruct n; simpl; lia.
  - destruct n as [|n]; simpl; [lia|]. specialize (IH n). lia.
Qed.

Lemma lstrip_length (s : string) :
  String.length (PyStr.lstrip s) ≤ String.length s.
Proof.
  induction s as [|c s IH]; simpl; [lia|].
  destruct (PyStr.is_space c); simpl; lia.
Qed.

Lemma rstrip_cons (c : ascii) (s : string) :
  PyStr.rstrip (String c s) = ""
  ∨ PyStr.rstrip (String c s) = String c (PyStr.rstrip s).
Proof.
  cbn [PyStr.rstrip]. destruct (PyStr.rstrip s) as [|d r].
  - destruct (PyStr.is_space c); [by left|by right].
  - by right.
Qed.

Lemma rstrip_length (s : string) :
  String.length (PyStr.rstrip s) ≤ String.length s.
Proof.
  induction s as [|c s IH]; [simpl; lia|].
  destruct (rstrip_cons c s) as [->| ->]; simpl; lia.
Qed.

(** A string that [strip] leaves alone does not start with white space. *)
Lemma strip_fixed_head (c : ascii) (s : string) :
  PyStr.strip (String c s) = String c s → PyStr.is_space c = false.
Proof.
  unfold PyStr.strip. cbn [PyStr.lstrip].
  destruct (PyStr.is_space c); [|done].
  intros H. pose proof (rstrip_length (PyStr.lstrip s)) as H1.
  pose proof (lstrip_length s) as H2. rewrite H in H1. simpl in H1. lia.
Qed.

(** Trimming the end of a text does not change a first line that is not
    empty and does not end with white space. *)
Lemma first_line_rstrip (s : string) :
  PyStr.rstrip (PyStr.first_line s) = PyStr.first_line s →
  PyStr.first_line s ≠ "" →
  PyStr.first_line (PyStr.rstrip s) = PyStr.first_line s.
Proof.
  induction s as [|c s IH]; [done|].
  cbn [PyStr.first_line]. destruct (Ascii.eqb c PyStr.newline) eqn:Hc; [done|].
  intros H _.
  destruct (rstrip_cons c (PyStr.first_line s)) as [H0|H1].
  { rewrite H0 in H. discriminate. }
  rewrite H1 in H. injection H as H.
  destruct (PyStr.first_line s) as [|d X] eqn:Hfl.
  - (* the first line is the single character [c] *)
    destruct (rstrip_cons c s) as [H0|H2].
    + exfalso. cbn [PyStr.rstrip] in H0.
      destruct (PyStr.rstrip s); [|discriminate].
      cbn [PyStr.rstrip] in H1. destruct (PyStr.is_space c); discriminate.
    + rewrite H2. cbn [PyStr.first_line]. rewrite Hc. f_equal.
      destruct s as [|d s']; [done|].
      cbn [PyStr.first_line] in Hfl.
      destruct (Ascii.eqb d PyStr.newline) eqn:Hd; [|discriminate].
      destruct (rstrip_cons d s') as [-> | ->]; [done|].
      cbn [PyStr.first_line]. by rewrite Hd.
  - specialize (IH H ltac:(done)).
    destruct (rstrip_cons c s) as [H0|H2].
    + exfalso. cbn [PyStr.rstrip] in H0.
      destruct (PyStr.rstrip s); [discriminate IH|discriminate].
    + rewrite H2. cbn [PyStr.first_line]. by rewrite Hc, IH.
Qed.

(** When the first line of the raw text is not empty and is already
    trimmed, the FielWeb title is the first line of the trimmed text. *)
Lemma fielweb_title_agrees (inner : string) :
  PyStr.strip (PyStr.first_line inner) = PyStr.first_line inner →
  PyStr.first_line inner ≠ "" →
  fielweb_title inner = PyStr.first_line (PyStr.strip inner).
Proof.
  unfold fielweb_title. intros H Hne. rewrite H.
  destruct inner as [|c s]; [done|].
  cbn [PyStr.first_line] in *.
  destruct (Ascii.eqb c PyStr.newline) eqn:Hc; [done|].
  pose proof (strip_fixed_head _ _ H) as Hsp.
  unfold PyStr.strip in *. cbn [PyStr.lstrip] in *. rewrite Hsp in *.
  symmetry.
  pose proof (first_line_rstrip (String c s)) as Hfl.
  cbn [PyStr.first_line] in Hfl. rewrite Hc in Hfl. by apply Hfl.
Qed.

Section Titles.
Context {W Node : Type} `{!Browser W Node}.

Lemma safe_inner_text_eq (n : Node) (default : string) (s : St W) :
  _safe_inner_text n default s =
    (Ok match fst (inner_text n s) with
        | Ok t => PyStr.or_else (PyStr.strip t) default
        | Raise _ => default
        end, snd (inner_text n s)).
Proof.
  unfold _safe_inner_text, Run.try_except, Run.except_Exception, Run.bind, Run.ret.
  by destruct (inner_text n s) as [[t|e] s1].
Qed.

Lemma recoger_nodo_titulos (fuente descripcion : string) (n : Node)
    (acc : list (gmap string string)) (s s' : St W) out :
  recoger_nodo fuente descripcion n acc s = (Ok out, s') →
  ∃ news, out = acc ++ news
          ∧ Forall (λ r, r !! "titulo" = Some (titulo_juris (fst (inner_text n s))))
              news.
Proof.
  unfold recoger_nodo. intros Hrun.
  apply bind_Ok_inv in Hrun as (txt & s1 & Htxt & Hrun).
  rewrite safe_inner_text_eq in Htxt. injection Htxt as <- <-.
  apply bind_Ok_inv in Hrun as (anchors & s2 & _ & Hrun).
  revert Hrun. apply for_each_appends.
  intros a acc' sa out' sa' Ha.
  apply bind_Ok_inv in Ha as (href & sb & _ & Ha).
  destruct (sel_truthy href).
  - apply bind_Ok_inv in Ha as (base & sc & _ & Ha). injection Ha as <- <-.
    eexists. split; [done|]. constructor; [|done].
    rewrite lookup_insert_ne, lookup_insert_eq by done.
    f_equal. unfold titulo_juris, juris_title.
    by destruct (fst (inner_text n s)).
  - injection Ha as <- <-. exists []. by rewrite app_nil_r.
Qed.

Lemma extraer_nodo_titulo (node : Node) (acc : list pyval) (s s' : St W) out :
  extraer_nodo node acc s = (Ok out, s') →
  ∃ inner enlaces,
    fst (inner_text node s) = Ok inner
    ∧ out = acc ++ [ PDict {[ "titulo" := PStr (fielweb_title inner);
                              "enlaces" := PList enlaces ]} ].
Proof.
  unfold extraer_nodo. intros Hrun.
  apply bind_Ok_inv in Hrun as (inner & s1 & Hinner & Hrun).
  apply bind_Ok_inv in Hrun as (links & s2 & _ & Hrun).
  apply bind_Ok_inv in Hrun as (enlaces & s3 & _ & Hrun).
  injection Hrun as <- <-. exists inner, enlaces. by rewrite Hinner.
Qed.

(** C9, as the code has it.  For every container:
    - every record a judicial source produces for it has the title
      [juris_title] of the text read from it: the first line of the trimmed
      text, cut to its first 140 characters (the empty title when reading
      the text raised); that is the whole first line exactly when the line
      has at most 140 characters, and the title never has more than 140;
    - the entry FielWeb produces for it has the title [fielweb_title] of the
      text read from it: the first line of the raw text, then trimmed; that
      is the first line of the trimmed text whenever the first line of the
      raw text is not empty and has no white space at either end. *)
Theorem titles_as_computed (fuente descripcion : string) (n : Node) (s : St W) :
  (∀ acc,
     match fst (recoger_nodo fuente descripcion n acc s) with
     | Ok out =>
         ∃ news, out = acc ++ news
                 ∧ Forall (λ r, r !! "titulo"
                                = Some (titulo_juris (fst (inner_text n s)))) news
     | Raise _ => True
     end)
  ∧ (∀ acc,
       match fst (extraer_nodo n acc s) with
       | Ok out =>
           ∃ inner enlaces,
             fst (inner_text n s) = Ok inner
             ∧ out = acc ++ [ PDict {[ "titulo" := PStr (PyStr.strip (PyStr.first_line inner));
                                       "enlaces" := PList enlaces ]} ]
       | Raise _ => True
       end)
  ∧ (∀ inner,
       titulo_juris (Ok inner)
       = PyStr.slice_to 140 (PyStr.first_line (PyStr.strip inner))
       ∧ String.length (titulo_juris (Ok inner)) ≤ 140
       ∧ (String.length (PyStr.first_line (PyStr.strip inner)) ≤ 140 →
          titulo_juris (Ok inner) = PyStr.first_line (PyStr.strip inner)))
  ∧ (∀ inner,
       PyStr.strip (PyStr.first_line inner) = PyStr.first_line inner →
       PyStr.first_line inner ≠ "" →
       PyStr.strip (PyStr.first_line inner) = PyStr.first_line (PyStr.strip inner)).
Proof.
  split; [|split; [|split]]; [| | |exact fielweb_title_agrees].
  - intros acc.
    destruct (recoger_nodo fuente descripcion n acc s) as [[out|e] s'] eqn:Hrun;
      [|done].
    by eapply recoger_nodo_titulos.
  - intros acc.
    destruct (extraer_nodo n acc s) as [[out|e] s'] eqn:Hrun; [|done].
    by eapply extraer_nodo_titulo.
  - intros inner.
    assert (titulo_juris (Ok inner)
            = PyStr.slice_to 140 (PyStr.first_line (PyStr.strip inner))) as Heq.
    { unfold titulo_juris, juris_title, PyStr.or_else.
      destruct (PyStr.truthy (PyStr.strip inner)) eqn:Ht; [done|].
      apply negb_false_iff, String.eqb_eq in Ht. by rewrite Ht. }
    split; [done|]. rewrite Heq. split; [apply slice_to_length|].
    apply slice_to_short.
Qed.

End Titles.

(** C9, as stated, fails.  The SATJE container holds one line of 141
    letters, and that line is the first line of its trimmed text; the
    record produced for it has a title of 140 letters.  The FielWeb
    container holds a text that starts with a line feed; the first line of
    its trimmed text is "Acuerdo 123", and the entry produced has the empty
    title. *)
Lemma title_claim_counterexample :
  let s := Fake.start DemoTitulos.portal in
  PyStr.first_line (PyStr.strip DemoTitulos.texto_largo) = DemoTitulos.texto_largo
  ∧ String.length DemoTitulos.texto_largo = 141
  ∧ fst (_buscar_satje default_URLS "x" s)
    = Ok [ {[ "fuente" := "SATJE";
              "titulo" := DemoTitulos.repetir 140 "a"%char;
              "descripcion" := "Sentencia registrada en SATJE";
              "url" := "https://satje.ec/1" ]} ]
  ∧ String.eqb (DemoTitulos.repetir 140 "a"%char)
       (PyStr.first_line (PyStr.strip DemoTitulos.texto_largo)) = false
  ∧ PyStr.first_line (PyStr.strip DemoTitulos.texto_con_salto) = "Acuerdo 123"
  ∧ fst (_buscar "x" s)
    = Ok [ PDict {[ "titulo" := PStr ""; "enlaces" := PList [] ]} ].
Proof. cbv zeta. repeat split; vm_compute; reflexivity. Qed.

(** ** What the output says about each source *)



Section Hybrid.
Context {W Node : Type} `{!Browser W Node}.





End Hybrid.

(** ** Failure isolation, end to end *)

Section IsolationEndToEnd.
Context {W Node : Type} `{!Browser W Node}.


End IsolationEndToEnd.

(** * Further properties of the code *)

(** ** Deduplication: idempotence and composition *)

Section DedupAlgebra.
Variable key : string.
Implicit Types (items l : list (gmap string string)) (seen : gset string).

Lemma dedup_loop_cons i l seen :
  dedup_loop key (i :: l) seen [] =
    match i !! key with
    | Some v =>
        if PyStr.truthy v && bool_decide (v ∉ seen)
        then i :: dedup_loop key l ({[v]} ∪ seen) []
        else dedup_loop key l seen []
    | None => dedup_loop key l seen []
    end.
Proof.
  cbn [dedup_loop]. destruct (i !! key) as [v|]; [|done].
  destruct (PyStr.truthy v && bool_decide (v ∉ seen)); [|done].
  by rewrite dedup_loop_out.
Qed.

(** Deduplicating an already deduplicated list, with other keys seen, is
    deduplicating the list once with both sets of keys seen. *)
Lemma dedup_loop_twice l seen seen' :
  dedup_loop key (dedup_loop key l seen []) seen' [] =
    dedup_loop key l (seen ∪ seen') [].
Proof.
  revert seen seen'. induction l as [|i l IH]; intros seen seen'; [done|].
  rewrite !(dedup_loop_cons i l).
  destruct (i !! key) as [v|] eqn:Hk; [|apply IH].
  destruct (PyStr.truthy v) eqn:Ht; cbn [andb]; [|apply IH].
  destruct (decide (v ∈ seen)) as [Hin|Hout].
  - rewrite (bool_decide_eq_false_2 (v ∉ seen)) by (by intros ?).
    rewrite (bool_decide_eq_false_2 (v ∉ seen ∪ seen')) by (intros Hn; apply Hn; set_solver).
    apply IH.
  - rewrite (bool_decide_eq_true_2 (v ∉ seen)) by done.
    rewrite dedup_loop_cons, Hk, Ht. cbn [andb].
    destruct (decide (v ∈ seen')) as [Hin'|Hout'].
    + rewrite (bool_decide_eq_false_2 (v ∉ seen')) by (by intros ?).
      rewrite (bool_decide_eq_false_2 (v ∉ seen ∪ seen')) by (intros Hn; apply Hn; set_solver).
      rewrite IH. f_equal. clear -Hin'. set_solver.
    + rewrite (bool_decide_eq_true_2 (v ∉ seen')) by done.
      rewrite (bool_decide_eq_true_2 (v ∉ seen ∪ seen')) by set_solver.
      rewrite IH. f_equal. f_equal. clear. set_solver.
Qed.

Lemma dedup_loop_app l1 l2 seen :
  dedup_loop key (l1 ++ l2) seen [] =
    dedup_loop key l1 seen [] ++ dedup_loop key l2 (keys_seen key l1 ∪ seen) [].
Proof.
  revert seen. induction l1 as [|i l1 IH]; intros seen.
  - cbn [app]. change (keys_seen key []) with (∅ : gset string).
    by rewrite (left_id_L ∅ (∪)).
  - cbn [app]. rewrite !dedup_loop_cons, keys_seen_cons.
    destruct (i !! key) as [v|] eqn:Hk.
    + destruct (PyStr.truthy v) eqn:Ht; cbn [andb].
      * destruct (decide (v ∈ seen)) as [Hin|Hout].
        -- rewrite (bool_decide_eq_false_2 (v ∉ seen)) by (by intros ?).
           rewrite IH. f_equal. f_equal. clear -Hin. set_solver.
        -- rewrite (bool_decide_eq_true_2 (v ∉ seen)) by done.
           rewrite IH. cbn [app]. f_equal. f_equal. f_equal. clear. set_solver.
      * rewrite IH. f_equal. f_equal. clear. set_solver.
    + rewrite IH. f_equal. f_equal. clear. set_solver.
Qed.

Lemma keys_seen_dedup items :
  keys_seen key (_dedup items key) = keys_seen key items.
Proof.
  apply set_eq. intros v. rewrite !elem_of_keys_seen.
  destruct (dedup_loop_keys key items ∅) as (Hall & _ & Hset).
  fold (_dedup items key) in *. rewrite !(right_id_L ∅ (∪)) in Hset.
  split.
  - intros (r & Hr & Hk & Hne). exists r. split; [|done].
    eapply elem_of_sublist; [exact Hr|]. apply dedup_loop_sublist.
  - intros (r & Hr & Hk & Hne).
    assert (v ∈ keys_seen key items) as Hv by (apply elem_of_keys_seen; eauto).
    rewrite <- Hset, elem_of_list_to_set, elem_of_key_values in Hv.
    destruct Hv as (r' & Hr' & Hk'). eauto.
Qed.

(** A list whose keys are all present, non-empty and pairwise distinct, none
    of them seen, goes through the loop unchanged. *)
Lemma dedup_loop_fixed l seen :
  Forall (λ r, ∃ v, r !! key = Some v ∧ v ≠ "" ∧ v ∉ seen) l →
  NoDup (key_values key l) →
  dedup_loop key l seen [] = l.
Proof.
  revert seen. induction l as [|i l IH]; intros seen Hall Hnd; [done|].
  apply Forall_cons in Hall as [(v & Hk & Hne & Hout) Hall].
  unfold key_values in Hnd. rewrite omap_cons_eq, Hk in Hnd.
  apply NoDup_cons in Hnd as [Hfresh Hnd].
  rewrite dedup_loop_cons, Hk.
  apply truthy_spec in Hne. rewrite Hne. cbn [andb].
  rewrite (bool_decide_eq_true_2 (v ∉ seen)) by done. f_equal.
  apply IH; [|done].
  apply Forall_forall. intros r Hr.
  rewrite Forall_forall in Hall. destruct (Hall r Hr) as (w & Hw & Hwne & Hwout).
  exists w. split; [done|]. split; [done|].
  intros [->%elem_of_singleton|?]%elem_of_union; [|done].
  apply Hfresh. apply elem_of_key_values. eauto.
Qed.

End DedupAlgebra.

(** X1.  [_dedup] is idempotent, and its fixed points are exactly the lists
    in which every record has a non-empty key and no two records share a
    key value. *)
Theorem dedup_idempotent (items : list (gmap string string)) (key : string) :
  _dedup (_dedup items key) key = _dedup items key
  ∧ (_dedup items key = items
     ↔ Forall (λ r, ∃ v, r !! key = Some v ∧ v ≠ "") items
       ∧ NoDup (key_values key items)).
Proof.
  split.
  - unfold _dedup. by rewrite dedup_loop_twice, (left_id_L ∅ (∪)).
  - split.
    + intros Heq. rewrite <- Heq.
      split; [apply dedup_keys_nonempty|apply dedup_keys_NoDup].
    + intros [Hall Hnd]. apply dedup_loop_fixed; [|done].
      eapply Forall_impl; [exact Hall|]. cbv beta.
      intros r (v & ? & ?). exists v. set_solver.
Qed.

Lemma dedup_loop_parts (parts : list (list (gmap string string)))
    (key : string) (seen : gset string) :
  dedup_loop key (concat ((λ l, _dedup l key) <$> parts)) seen []
  = dedup_loop key (concat parts) seen [].
Proof.
  revert seen. induction parts as [|l parts IH]; intros seen; [done|].
  cbn [fmap list_fmap concat]. rewrite !dedup_loop_app, keys_seen_dedup, IH.
  f_equal. unfold _dedup. by rewrite dedup_loop_twice, (left_id_L ∅ (∪)).
Qed.

(** X2.  Deduplicating each part before the merge changes nothing: for any
    lists of records, deduplicating the concatenation of the deduplicated
    parts gives the same list as deduplicating the concatenation of the
    parts.  (Each judicial source deduplicates its own records and the
    orchestrator deduplicates the merged list.) *)
Theorem dedup_of_deduped_parts
    (parts : list (list (gmap string string))) (key : string) :
  _dedup (concat ((λ l, _dedup l key) <$> parts)) key
  = _dedup (concat parts) key.
Proof. apply dedup_loop_parts. Qed.

(** ** The records of the judicial sources *)

Lemma Forall_sublist_of {A} (P : A → Prop) (l k : list A) :
  sublist l k → Forall P k → Forall P l.
Proof.
  intros Hsub Hall. apply Forall_forall. intros x Hx.
  rewrite Forall_forall in Hall. apply Hall. by eapply elem_of_sublist.
Qed.

Section SourceRecords.
Context {W Node : Type} `{!Browser W Node}.

Lemma recoger_nodo_registros (fuente descripcion : string) (n : Node)
    (acc : list (gmap string string)) (s : St W) out s' :
  recoger_nodo fuente descripcion n acc s = (Ok out, s') →
  ∃ news, out = acc ++ news ∧ Forall (registro_de fuente descripcion) news.
Proof.
  unfold recoger_nodo. intros Hrun.
  apply bind_Ok_inv in Hrun as (txt & s1 & _ & Hrun).
  apply bind_Ok_inv in Hrun as (anchors & s2 & _ & Hrun).
  revert Hrun. apply for_each_appends.
  intros a acc' sa out' sa' Ha.
  apply bind_Ok_inv in Ha as (href & sb & _ & Ha).
  destruct (sel_truthy href).
  - apply bind_Ok_inv in Ha as (base & sc & _ & Ha). injection Ha as <- <-.
    eexists. split; [done|]. constructor; [|done].
    exists (PyStr.slice_to 140 (PyStr.first_line txt)),
      (_abs_url base (str_or_empty href)).
    split; [reflexivity|]. apply slice_to_length.
  - injection Ha as <- <-. exists []. by rewrite app_nil_r.
Qed.

Lemma recoger_registros (fuente descripcion : string) (nodes : list Node)
    (s s' : St W) out :
  recoger fuente descripcion nodes s = (Ok out, s') →
  registros_de fuente descripcion out.
Proof.
  unfold recoger. intros Hrun.
  apply bind_Ok_inv in Hrun as (resultados & s1 & Hloop & Hrun).
  injection Hrun as <- <-.
  apply (for_each_appends (registro_de fuente descripcion)) in Hloop
    as (news & -> & Hnews); [|intros; by eapply recoger_nodo_registros].
  split; [|split].
  - eapply Forall_sublist_of; [apply dedup_loop_sublist|done].
  - apply dedup_keys_nonempty.
  - apply dedup_keys_NoDup.
Qed.

Lemma registros_de_nil (fuente descripcion : string) :
  registros_de fuente descripcion [].
Proof. repeat split; constructor. Qed.

Ltac source_records :=
  let Hrun := fresh "Hrun" in
  intros Hrun;
  apply bind_Ok_inv in Hrun as (? & ? & _ & Hrun);
  apply bind_Ok_inv in Hrun as (? & ? & _ & Hrun);
  apply bind_Ok_inv in Hrun as (? & ? & _ & Hrun);
  match type of Hrun with
  | (if ?c then _ else _) _ = _ => destruct c
  end;
  [ injection Hrun as <- <-; apply registros_de_nil
  | apply bind_Ok_inv in Hrun as (? & ? & _ & Hrun);
    apply bind_Ok_inv in Hrun as (? & ? & _ & Hrun);
    apply bind_Ok_inv in Hrun as (? & ? & _ & Hrun);
    apply bind_Ok_inv in Hrun as (? & ? & _ & Hrun);
    by eapply recoger_registros ].

Lemma buscar_satje_registros (URLS : urls) (texto : string) (s s' : St W) rs :
  _buscar_satje URLS texto s = (Ok rs, s') → registros_de "SATJE" DESC_SATJE rs.
Proof. unfold _buscar_satje. source_records. Qed.

Lemma buscar_cc_registros (URLS : urls) (texto : string) (s s' : St W) rs :
  _buscar_corte_constitucional URLS texto s = (Ok rs, s') →
  registros_de "Corte Constitucional" DESC_CC rs.
Proof. unfold _buscar_corte_constitucional. source_records. Qed.

Lemma buscar_cnj_registros (URLS : urls) (texto : string) (s s' : St W) rs :
  _buscar_corte_nacional URLS texto s = (Ok rs, s') →
  registros_de "Corte Nacional de Justicia" DESC_CNJ rs.
Proof. unfold _buscar_corte_nacional. source_records. Qed.

(** X3.  Whatever the portal answers, a judicial source that returns
    returns records of its own shape: each record has exactly the fields
    fuente, titulo, descripcion and url, with the source's own name and
    description and a title of at most 140 characters; each url is
    non-empty, and no two records of one source share a url. *)
Theorem judicial_source_records (URLS : urls) (texto : string) (s : St W) :
  match fst (_buscar_satje URLS texto s) with
  | Ok rs => registros_de "SATJE" DESC_SATJE rs
  | Raise _ => True
  end
  ∧ match fst (_buscar_corte_constitucional URLS texto s) with
    | Ok rs => registros_de "Corte Constitucional" DESC_CC rs
    | Raise _ => True
    end
  ∧ match fst (_buscar_corte_nacional URLS texto s) with
    | Ok rs => registros_de "Corte Nacional de Justicia" DESC_CNJ rs
    | Raise _ => True
    end.
Proof.
  split; [|split].
  - destruct (_buscar_satje URLS texto s) as [[rs|e] s'] eqn:Hrun; [|done].
    by eapply buscar_satje_registros.
  - destruct (_buscar_corte_constitucional URLS texto s) as [[rs|e] s'] eqn:Hrun;
      [|done].
    by eapply buscar_cc_registros.
  - destruct (_buscar_corte_nacional URLS texto s) as [[rs|e] s'] eqn:Hrun; [|done].
    by eapply buscar_cnj_registros.
Qed.

(** What a source contributes to the merged list: apart from an error
    record, which has no url, records of its own shape. *)
Lemma aporte_registros (fuente descripcion : string)
    (funcion : string → M W (list (gmap string string)))
    (texto : string) (s : St W) :
  (∀ rs s', funcion texto s = (Ok rs, s') → registros_de fuente descripcion rs) →
  Forall (λ r, is_Some (r !! "url") → registro_de fuente descripcion r)
         (fst (aporte fuente funcion texto s)).
Proof.
  intros Hf. unfold aporte.
  destruct (funcion texto s) as [[rs|e] s'] eqn:Hrun; cbn [fst].
  - destruct (Hf _ _ eq_refl) as (Hall & _).
    eapply Forall_impl; [exact Hall|]. done.
  - constructor; [|done]. rewrite error_record_no_url. by intros [? ?].
Qed.

(** X4.  The resultado list of the judicial orchestrator is grouped by
    source in declaration order: first records of SATJE, then records of the
    Corte Constitucional, then records of the Corte Nacional, each of the
    shape of its source. *)
Theorem resultado_grouped_by_source (URLS : urls) (texto : string) (s : St W) :
  let rs := take MAX_ITEMS (_dedup (fst (aportes (fuentes URLS) texto s)) "url") in
  fst (juris_try_body URLS texto s) =
    Ok {[ "mensaje" := PStr ("Consulta completada para '" +:+ texto +:+ "'.");
          "nivel_consulta" := PStr "Jurisprudencia";
          "resultado" := PList (PyVal.of_record <$> rs) ]}
  ∧ ∃ a b c,
      rs = a ++ b ++ c
      ∧ Forall (registro_de "SATJE" DESC_SATJE) a
      ∧ Forall (registro_de "Corte Constitucional" DESC_CC) b
      ∧ Forall (registro_de "Corte Nacional de Justicia" DESC_CNJ) c.
Proof.
  intros rs. split; [by rewrite juris_try_body_eq|].
  assert (Forall (λ r : gmap string string, ∃ u, r !! "url" = Some u ∧ u ≠ "") rs)
    as Hurl by apply Forall_take, dedup_keys_nonempty.
  assert (sublist rs (fst (aportes (fuentes URLS) texto s))) as Hsub.
  { etrans; [apply sublist_take|apply dedup_loop_sublist]. }
  revert Hsub. unfold fuentes. cbn [aportes].
  pose proof (aporte_registros "SATJE" DESC_SATJE (_buscar_satje URLS) texto s
                (λ rs s', buscar_satje_registros URLS texto s s' rs)) as H1.
  destruct (aporte "SATJE" _ texto s) as [r1 s1]. cbn [fst] in H1.
  pose proof (aporte_registros "Corte Constitucional" DESC_CC
                (_buscar_corte_constitucional URLS) texto s1
                (λ rs s', buscar_cc_registros URLS texto s1 s' rs)) as H2.
  destruct (aporte "Corte Constitucional" _ texto s1) as [r2 s2]. cbn [fst] in H2.
  pose proof (aporte_registros "Corte Nacional de Justicia" DESC_CNJ
                (_buscar_corte_nacional URLS) texto s2
                (λ rs s', buscar_cnj_registros URLS texto s2 s' rs)) as H3.
  destruct (aporte "Corte Nacional de Justicia" _ texto s2) as [r3 s3].
  cbn [fst] in H3. cbn [fst]. rewrite app_nil_r.
  intros (a & bc & Hrs & Ha & Hbc)%sublist_app_r.
  apply sublist_app_r in Hbc as (b & c & -> & Hb & Hc).
  exists a, b, c. split; [done|].
  rewrite Hrs in Hurl. apply Forall_app in Hurl as [Ua Ubc].
  apply Forall_app in Ubc as [Ub Uc].
  assert (∀ f d (k r : list (gmap string string)),
            sublist k r →
            Forall (λ x, ∃ u, x !! "url" = Some u ∧ u ≠ "") k →
            Forall (λ x, is_Some (x !! "url") → registro_de f d x) r →
            Forall (registro_de f d) k) as Hkeep.
  { intros f d k r Hk Uk Hr. apply Forall_forall. intros x Hx.
    rewrite Forall_forall in Uk, Hr. destruct (Uk x Hx) as (u & Hu & _).
    apply Hr; [by eapply elem_of_sublist|]. by exists u. }
  split; [by apply (Hkeep _ _ a r1)|].
  split; [by apply (Hkeep _ _ b r2)|]. by apply (Hkeep _ _ c r3).
Qed.

End SourceRecords.

(** ** Trimmed strings *)

Lemma rstrip_idempotent (s : string) :
  PyStr.rstrip (PyStr.rstrip s) = PyStr.rstrip s.
Proof.
  induction s as [|c s IH]; [done|].
  destruct (rstrip_cons c s) as [H|H]; rewrite H; [done|].
  rewrite <- H at 2. cbn [PyStr.rstrip]. by rewrite IH.
Qed.

Lemma lstrip_head (s : string) :
  PyStr.lstrip s = ""
  ∨ ∃ c t, PyStr.lstrip s = String c t ∧ PyStr.is_space c = false.
Proof.
  induction s as [|c s IH]; [by left|].
  cbn [PyStr.lstrip]. destruct (PyStr.is_space c) eqn:Hc; [done|].
  right. by exists c, s.
Qed.

Lemma strip_idempotent (s : string) :
  PyStr.strip (PyStr.strip s) = PyStr.strip s.
Proof.
  unfold PyStr.strip.
  destruct (lstrip_head s) as [->|(c & t & -> & Hc)]; [done|].
  destruct (rstrip_cons c t) as [H|H]; rewrite H; [done|].
  cbn [PyStr.lstrip]. rewrite Hc, <- H. apply rstrip_idempotent.
Qed.

Lemma mem_lstrip (c : ascii) (s : string) :
  PyStr.mem c (PyStr.lstrip s) = true → PyStr.mem c s = true.
Proof.
  induction s as [|d s IH]; [done|].
  cbn [PyStr.lstrip]. destruct (PyStr.is_space d); [|done].
  intros H%IH. cbn [PyStr.mem]. rewrite H. apply orb_true_r.
Qed.

Lemma mem_rstrip (c : ascii) (s : string) :
  PyStr.mem c (PyStr.rstrip s) = true → PyStr.mem c s = true.
Proof.
  induction s as [|d s IH]; [done|].
  destruct (rstrip_cons d s) as [H|H]; rewrite H; [done|].
  cbn [PyStr.mem]. intros [->|Hm%IH]%orb_true_iff; [done|].
  rewrite Hm. apply orb_true_r.
Qed.

Lemma first_line_no_newline (s : string) :
  PyStr.mem PyStr.newline (PyStr.first_line s) = false.
Proof.
  induction s as [|c s IH]; [done|].
  cbn [PyStr.first_line]. destruct (Ascii.eqb c PyStr.newline) eqn:Hc; [done|].
  cbn [PyStr.mem]. by rewrite Ascii.eqb_sym, Hc, IH.
Qed.

Lemma strip_first_line_no_newline (s : string) :
  PyStr.mem PyStr.newline (PyStr.strip (PyStr.first_line s)) = false.
Proof.
  destruct (PyStr.mem _ _) eqn:H; [|done].
  apply mem_rstrip, mem_lstrip in H. by rewrite first_line_no_newline in H.
Qed.

Lemma or_else_empty (t : string) : PyStr.or_else t "" = t.
Proof. unfold PyStr.or_else, PyStr.truthy. by destruct t. Qed.

(** [txt or default] is never empty when the default is not, and is a
    trimmed string when [txt] and the default are. *)
Lemma or_else_strip (t default : string) :
  default ≠ "" → PyStr.strip default = default →
  PyStr.or_else (PyStr.strip t) default ≠ ""
  ∧ PyStr.strip (PyStr.or_else (PyStr.strip t) default)
    = PyStr.or_else (PyStr.strip t) default.
Proof.
  intros Hd Hs. unfold PyStr.or_else.
  destruct (PyStr.truthy (PyStr.strip t)) eqn:Ht.
  - split; [by apply truthy_spec|apply strip_idempotent].
  - done.
Qed.

(** ** [_safe_inner_text] *)

Section SafeText.
Context {W Node : Type} `{!Browser W Node}.

(** X14.  [_safe_inner_text] always returns, after exactly the one read of
    the text; its value is the default, or else the trimmed text of the
    node, which is then not empty and has no white space at either end. *)
Theorem safe_inner_text_result (node : Node) (default : string) (s : St W) :
  ∃ txt,
    _safe_inner_text node default s = (Ok txt, snd (inner_text node s))
    ∧ (txt = default
       ∨ (∃ t, fst (inner_text node s) = Ok t ∧ txt = PyStr.strip t)
         ∧ txt ≠ "" ∧ PyStr.strip txt = txt).
Proof.
  rewrite safe_inner_text_eq. eexists. split; [done|].
  destruct (fst (inner_text node s)) as [t|e]; [|by left].
  unfold PyStr.or_else. destruct (PyStr.truthy (PyStr.strip t)) eqn:Ht; [|by left].
  right. split; [by exists t|]. split; [by apply truthy_spec|apply strip_idempotent].
Qed.

End SafeText.

(** ** The entries of FielWeb *)

Lemma classify_link_kinds (texto : string) :
  _classify_link texto = "descarga" ∨ _classify_link texto = "otro".
Proof.
  unfold _classify_link. cbv zeta.
  rewrite concordancias_never_match, juris_never_match.
  destruct (any_in DOWNLOAD_FILTERS _); [by left|by right].
Qed.

Section Entries.
Context {W Node : Type} `{!Browser W Node}.

Lemma extraer_nodo_entrada (node : Node) (acc : list pyval) (s : St W) out s' :
  extraer_nodo node acc s = (Ok out, s') →
  ∃ news, out = acc ++ news ∧ Forall entrada_ok news.
Proof.
  unfold extraer_nodo. intros Hrun.
  apply bind_Ok_inv in Hrun as (inner & s1 & _ & Hrun).
  apply bind_Ok_inv in Hrun as (links & s2 & _ & Hrun).
  apply bind_Ok_inv in Hrun as (enlaces & s3 & Hloop & Hrun).
  injection Hrun as <- <-. eexists. split; [done|]. constructor; [|done].
  exists (PyStr.strip (PyStr.first_line inner)), enlaces.
  split; [done|]. split; [apply strip_idempotent|].
  split; [apply strip_first_line_no_newline|].
  apply (for_each_appends enlace_ok) in Hloop as (news & -> & Hnews); [done|].
  clear. intros a acc sa out sa' Ha.
  apply bind_Ok_inv in Ha as (h & sb & _ & Ha).
  apply bind_Ok_inv in Ha as (t & sc & _ & Ha).
  destruct (PyStr.truthy (str_or_empty h)).
  - apply bind_Ok_inv in Ha as (base & sd & _ & Ha).
    apply bind_Ok_inv in Ha as (url & se & _ & Ha).
    injection Ha as <- <-. eexists. split; [done|]. constructor; [|done].
    exists (_classify_link (PyStr.or_else t "")),
      (PyStr.or_else (PyStr.strip (PyStr.or_else t "")) "enlace"), url.
    split; [done|]. split; [apply classify_link_kinds|].
    by apply or_else_strip.
  - injection Ha as <- <-. exists []. by rewrite app_nil_r.
Qed.

Lemma extraer_resultados_entradas (sels : list string) (s : St W) out s' :
  extraer_resultados sels s = (Ok out, s') → Forall entrada_ok out.
Proof.
  revert s. induction sels as [|sel rest IH]; intros s Hrun.
  - injection Hrun as <- <-. constructor.
  - cbn [extraer_resultados] in Hrun.
    apply bind_Ok_inv in Hrun as (nodes & s1 & _ & Hrun).
    destruct nodes as [|n nodes]; [by eapply IH|].
    apply (for_each_appends entrada_ok) in Hrun as (news & -> & Hnews); [done|].
    intros. by eapply extraer_nodo_entrada.
Qed.

(** X7.  Every entry [_buscar] returns has exactly the fields titulo and
    enlaces; the title is a single line with no white space at either end;
    every link has exactly the fields tipo, texto and url, a kind that is
    "descarga" or "otro", and a label that is never empty (an anchor without
    visible text is labelled "enlace") and has no white space at either
    end. *)
Theorem fielweb_entries_well_formed (texto : string) (s : St W) :
  match fst (_buscar texto s) with
  | Ok out => Forall entrada_ok out
  | Raise _ => True
  end.
Proof.
  destruct (_buscar texto s) as [[out|e] s'] eqn:Hrun; [|done]. cbn [fst].
  unfold _buscar in Hrun.
  apply bind_Ok_inv in Hrun as (q_sel & s1 & _ & Hrun).
  apply bind_Ok_inv in Hrun as (b_sel & s2 & _ & Hrun).
  destruct (negb _); [discriminate|].
  apply bind_Ok_inv in Hrun as (? & s3 & _ & Hrun).
  apply bind_Ok_inv in Hrun as (? & s4 & _ & Hrun).
  apply bind_Ok_inv in Hrun as (? & s5 & _ & Hrun).
  by eapply extraer_resultados_entradas.
Qed.

(** X6.  The container selectors are tried in list order and extraction
    stops at the first one that yields a node: when the extraction returns,
    either every selector was queried and yielded nothing, and the result is
    empty; or the selectors before some [sel] yielded nothing, [sel] yielded
    a non-empty list, no later selector was queried, and the result has one
    entry for each of the first [MAX_ITEMS] nodes of that list. *)
Theorem container_selector_priority (sels : list string) (s : St W) :
  match extraer_resultados sels s with
  | (Ok out, s') =>
      (all_empty sels s = true ∧ out = [] ∧ s' = after_queries sels s)
      ∨ (∃ pre sel post nodes,
           sels = pre ++ sel :: post
           ∧ all_empty pre s = true
           ∧ fst (query_selector_all sel (after_queries pre s)) = Ok nodes
           ∧ nodes ≠ []
           ∧ Run.for_each (take MAX_ITEMS nodes) extraer_nodo []
               (snd (query_selector_all sel (after_queries pre s))) = (Ok out, s')
           ∧ length out = MAX_ITEMS `min` length nodes)
  | (Raise _, _) => True
  end.
Proof.
  revert s. induction sels as [|sel rest IH]; intros s.
  - left. by repeat split.
  - cbn [extraer_resultados]. unfold Run.bind.
    destruct (query_selector_all sel s) as [[nodes|e] s1] eqn:Hq; [|done].
    destruct nodes as [|n nodes].
    + specialize (IH s1).
      destruct (extraer_resultados rest s1) as [[out|e] s'] eqn:Hrest; [|done].
      destruct IH as [(Hall & -> & ->)|(pre & sel' & post & nodes & -> & Hall & Hn & Hne & Hrun & Hlen)].
      * left. cbn [all_empty after_queries]. unfold yields_nothing.
        rewrite Hq. cbn [fst snd andb]. by repeat split.
      * right. exists (sel :: pre), sel', post, nodes.
        cbn [all_empty after_queries]. unfold yields_nothing.
        rewrite Hq. cbn [fst snd andb]. by repeat split.
    + destruct (Run.for_each _ _ _ _) as [[out|e] s'] eqn:Hrun; [|done].
      right. exists [], sel, rest, (n :: nodes).
      cbn [all_empty after_queries app]. rewrite Hq. cbn [fst snd].
      repeat split; [done|done|].
      apply (for_each_appends_one _ extraer_nodo_appends_one) in Hrun.
      by rewrite Hrun, length_take.
Qed.

End Entries.

(** ** A judicial portal without its search form *)

Section NoForm.
Context {W Node : Type} `{!Browser W Node}.

Lemma log_query_selector (sel : string) (s : St W) :
  log (snd (query_selector sel s)) = log s ++ [CQuerySelector sel].
Proof.
  unfold query_selector, logged. by destruct (page_query_selector sel (world s)).
Qed.

(** The resolver only probes, and only a prefix of its candidates. *)
Lemma first_selector_log (sels : list string) (s : St W) :
  ∃ n, log (snd (_first_selector sels s))
       = log s ++ (CQuerySelector <$> take n sels).
Proof.
  revert s. induction sels as [|c rest IH]; intros s.
  - exists 0. by rewrite app_nil_r.
  - rewrite first_selector_cons. destruct (probe_hits c s).
    + exists 1. cbn [snd]. by rewrite log_query_selector.
    + destruct (IH (snd (query_selector c s))) as (n & ->).
      exists (S n). rewrite log_query_selector, <- app_assoc. done.
Qed.

Lemma first_selector_all_miss (sels : list string) (s : St W) :
  all_miss sels s = true → fst (_first_selector sels s) = Ok None.
Proof.
  revert s. induction sels as [|c rest IH]; intros s; [done|].
  cbn [all_miss]. rewrite first_selector_cons.
  destruct (probe_hits c s); [done|]. cbn [negb andb]. apply IH.
Qed.

Lemma first_selector_Ok (sels : list string) (s : St W) :
  ∃ r, _first_selector sels s = (Ok r, snd (_first_selector sels s)).
Proof.
  revert s. induction sels as [|c rest IH]; intros s; [by exists None|].
  rewrite first_selector_cons. destruct (probe_hits c s); [by eexists|apply IH].
Qed.

(** The shape shared by the three sources, up to the test on the controls. *)
Lemma source_without_form (url : string) (query boton : list string)
    (rest : option string → option string → M W (list (gmap string string)))
    (s s1 : St W) :
  goto url s = (Ok tt, s1) →
  sin_formulario query boton s1 →
  (goto url ;;;
   q_sel <- _first_selector query ;;
   b_sel <- _first_selector boton ;;
   if negb (sel_truthy q_sel) || negb (sel_truthy b_sel) then Run.ret []
   else rest q_sel b_sel) s
  = (Ok [], snd (_first_selector boton (snd (_first_selector query s1)))).
Proof.
  intros Hg Hsin. unfold Run.bind. rewrite Hg.
  destruct (first_selector_Ok query s1) as (q & Hq). rewrite Hq.
  destruct (first_selector_Ok boton (snd (_first_selector query s1))) as (b & Hb).
  rewrite Hb.
  destruct Hsin as [Hm|Hm]; apply first_selector_all_miss in Hm.
  - rewrite Hq in Hm. injection Hm as ->. done.
  - rewrite Hb in Hm. injection Hm as ->. cbn [sel_truthy negb].
    by rewrite orb_true_r.
Qed.

Lemma log_without_form (url : string) (query boton : list string) (s s1 : St W) :
  goto url s = (Ok tt, s1) →
  ∃ n m,
    log (snd (_first_selector boton (snd (_first_selector query s1))))
    = log s ++ [CGoto url "domcontentloaded" NAV_TIMEOUT_MS]
        ++ (CQuerySelector <$> take n query)
        ++ (CQuerySelector <$> take m boton).
Proof.
  intros Hg.
  destruct (first_selector_log boton (snd (_first_selector query s1))) as (m & ->).
  destruct (first_selector_log query s1) as (n & ->).
  exists n, m.
  assert (log s1 = log s ++ [CGoto url "domcontentloaded" NAV_TIMEOUT_MS]) as ->.
  { unfold goto in Hg. rewrite <- log_emit. by rewrite Hg. }
  by rewrite <- !app_assoc.
Qed.

(** X5.  When a judicial portal loads but its search form is not there (no
    candidate for the query field matches, or none for the button), the
    source returns the empty list: it raises nothing, and after the
    navigation it only probes selectors; nothing is filled, clicked or
    waited for.  This holds for each of the three sources. *)
Theorem judicial_source_without_form (URLS : urls) (texto : string) (s : St W) :
  (∀ s1, goto (satje URLS) s = (Ok tt, s1) →
         sin_formulario SATJE_QUERY BOTON_BUSCAR s1 →
         ∃ s3 n m,
           _buscar_satje URLS texto s = (Ok [], s3)
           ∧ log s3 = log s ++ [CGoto (satje URLS) "domcontentloaded" NAV_TIMEOUT_MS]
                        ++ (CQuerySelector <$> take n SATJE_QUERY)
                        ++ (CQuerySelector <$> take m BOTON_BUSCAR))
  ∧ (∀ s1, goto (corte_constitucional URLS) s = (Ok tt, s1) →
           sin_formulario CORTE_QUERY BOTON_BUSCAR s1 →
           ∃ s3 n m,
             _buscar_corte_constitucional URLS texto s = (Ok [], s3)
             ∧ log s3 = log s ++ [CGoto (corte_constitucional URLS)
                                     "domcontentloaded" NAV_TIMEOUT_MS]
                          ++ (CQuerySelector <$> take n CORTE_QUERY)
                          ++ (CQuerySelector <$> take m BOTON_BUSCAR))
  ∧ (∀ s1, goto (corte_nacional URLS) s = (Ok tt, s1) →
           sin_formulario CORTE_QUERY BOTON_BUSCAR s1 →
           ∃ s3 n m,
             _buscar_corte_nacional URLS texto s = (Ok [], s3)
             ∧ log s3 = log s ++ [CGoto (corte_nacional URLS)
                                     "domcontentloaded" NAV_TIMEOUT_MS]
                          ++ (CQuerySelector <$> take n CORTE_QUERY)
                          ++ (CQuerySelector <$> take m BOTON_BUSCAR)).
Proof.
  split; [|split]; intros s1 Hg Hsin.
  - destruct (log_without_form _ SATJE_QUERY BOTON_BUSCAR _ _ Hg) as (n & m & Hlog).
    eexists _, n, m. split; [|exact Hlog].
    unfold _buscar_satje. by apply source_without_form.
  - destruct (log_without_form _ CORTE_QUERY BOTON_BUSCAR _ _ Hg) as (n & m & Hlog).
    eexists _, n, m. split; [|exact Hlog].
    unfold _buscar_corte_constitucional. by apply source_without_form.
  - destruct (log_without_form _ CORTE_QUERY BOTON_BUSCAR _ _ Hg) as (n & m & Hlog).
    eexists _, n, m. split; [|exact Hlog].
    unfold _buscar_corte_nacional. by apply source_without_form.
Qed.

End NoForm.

(** On a portal with no form control at all, SATJE answers the empty list
    after the navigation and four probes. *)
Lemma judicial_source_without_form_witness :
  let s := Fake.start Demo.sin_formularios in
  ∃ s3 n m,
    _buscar_satje default_URLS "despido" s = (Ok [], s3)
    ∧ log s3 = log s ++ [CGoto (satje default_URLS) "domcontentloaded" NAV_TIMEOUT_MS]
                 ++ (CQuerySelector <$> take n SATJE_QUERY)
                 ++ (CQuerySelector <$> take m BOTON_BUSCAR).
Proof.
  cbv zeta.
  eapply (proj1 (judicial_source_without_form default_URLS "despido"
                   (Fake.start Demo.sin_formularios))).
  - reflexivity.
  - left. reflexivity.
Defined.

(** ** Missing credentials *)

Section Credentials.
Context {W Node : Type} `{!Browser W Node}.

(** X8.  When the login address, the user name or the password is empty,
    a FielWeb query with a text gets the "general error" dictionary that
    names the missing environment variables, and no call on the browser is
    made: the state is the one the query was made in. *)
Theorem missing_credentials_reported (ENV : fielweb_env)
    (payload : gmap string pyval) (t : string) (s : St W) :
  texto_de (PyVal.get payload "texto") (PyVal.get payload "consulta") = Ok t →
  t ≠ "" →
  forallb PyStr.truthy [FIELWEB_URL ENV; USERNAME ENV; PASSWORD ENV] = false →
  consultar_fielweb ENV payload s =
    (Ok {[ "error" :=
             PStr ("Error general al consultar FielWeb: "
                   +:+ "Faltan variables de entorno para FielWeb (URL, usuario o contrase"
                   +:+ chr 241 +:+ "a).");
           "nivel_consulta" := PStr "FielWeb" ]}, s).
Proof.
  intros Ht Hne Henv. apply truthy_spec in Hne.
  unfold consultar_fielweb, Run.bind, Run.lift. rewrite Ht, Hne. cbn [negb].
  unfold Run.try_except, _buscar_en_fielweb_async. rewrite Henv. done.
Qed.

End Credentials.

(** With nothing set in the environment the password is empty. *)
Lemma missing_credentials_reported_witness :
  consultar_fielweb default_ENV Demo.payload (Fake.start Demo.satje_caido) =
    (Ok {[ "error" :=
             PStr ("Error general al consultar FielWeb: "
                   +:+ "Faltan variables de entorno para FielWeb (URL, usuario o contrase"
                   +:+ chr 241 +:+ "a).");
           "nivel_consulta" := PStr "FielWeb" ]}, Fake.start Demo.satje_caido).
Proof.
  apply (missing_credentials_reported default_ENV Demo.payload
           "despido intempestivo"); [reflexivity|discriminate|reflexivity].
Defined.

(** ** Teardown *)

Section Teardown.
Context {W Node : Type} `{!Browser W Node}.

(** After a body that left state [sb], the [finally] block and the exit of
    the [async with] make these calls, in this order. *)
Lemma teardown_log {A} (body : M W A) (s0 s1 : St W) :
  open_page s0 = (Ok tt, s1) →
  ∃ tail,
    log (snd (Run.try_finally (open_page ;;; Run.try_finally body close_all)
                (emit CStop) s0))
    = log (snd (body s1)) ++ CContextClose :: tail
    ∧ (tail = [CStop] ∨ tail = [CBrowserClose; CStop])
    ∧ (fst (emit CContextClose (snd (body s1))) = Ok tt →
       tail = [CBrowserClose; CStop]).
Proof.
  intros Hopen. unfold Run.try_finally at 1. unfold Run.bind at 1.
  rewrite Hopen. unfold Run.try_finally. destruct (body s1) as [r sb]. cbn [snd].
  unfold close_all, Run.bind.
  pose proof (log_emit CContextClose sb) as L1.
  destruct (emit CContextClose sb) as [[[]|e1] sc]; cbn [snd fst] in *.
  - pose proof (log_emit CBrowserClose sc) as L2.
    destruct (emit CBrowserClose sc) as [[[]|e2] sd]; cbn [snd] in *.
    + pose proof (log_emit CStop sd) as L3.
      exists [CBrowserClose; CStop].
      destruct (emit CStop sd) as [[[]|e3] se]; cbn [snd] in *;
        rewrite L3, L2, L1, <- !app_assoc; by repeat split; try right.
    + pose proof (log_emit CStop sd) as L3.
      exists [CBrowserClose; CStop].
      destruct (emit CStop sd) as [[[]|e3] se]; cbn [snd] in *;
        rewrite L3, L2, L1, <- !app_assoc; by repeat split; try right.
  - pose proof (log_emit CStop sc) as L3.
    exists [CStop].
    destruct (emit CStop sc) as [[[]|e3] se]; cbn [snd] in *;
      rewrite L3, L1, <- !app_assoc; by repeat split; try left.
Qed.

(** X9.  Once Playwright has started and the page has been opened, both
    connectors close what they opened whatever their flow did: right after
    the calls of the flow come [context.close()], then [browser.close()]
    unless closing the context raised, then the stop of Playwright, and
    nothing else. *)
Theorem browser_is_always_closed (URLS : urls) (ENV : fielweb_env)
    (texto : string) (s s0 s1 : St W) :
  texto ≠ "" →
  emit CStart s = (Ok tt, s0) →
  open_page s0 = (Ok tt, s1) →
  (∃ tail,
     log (snd (_buscar_juris_async URLS texto s))
     = log (snd (juris_try_body URLS texto s1)) ++ CContextClose :: tail
     ∧ (tail = [CStop] ∨ tail = [CBrowserClose; CStop])
     ∧ (fst (emit CContextClose (snd (juris_try_body URLS texto s1))) = Ok tt →
        tail = [CBrowserClose; CStop]))
  ∧ (forallb PyStr.truthy [FIELWEB_URL ENV; USERNAME ENV; PASSWORD ENV] = true →
     ∃ tail,
       log (snd (_buscar_en_fielweb_async ENV texto s))
       = log (snd (fielweb_try_body ENV texto s1)) ++ CContextClose :: tail
       ∧ (tail = [CStop] ∨ tail = [CBrowserClose; CStop])
       ∧ (fst (emit CContextClose (snd (fielweb_try_body ENV texto s1))) = Ok tt →
          tail = [CBrowserClose; CStop])).
Proof.
  intros Hne%truthy_spec Hstart Hopen. split.
  - unfold _buscar_juris_async, async_with_playwright. rewrite Hne. cbn [negb].
    unfold Run.bind at 1. rewrite Hstart. by apply teardown_log.
  - intros Henv. unfold _buscar_en_fielweb_async, async_with_playwright.
    rewrite Henv. cbn [negb].
    unfold Run.bind at 1. rewrite Hstart. by apply teardown_log.
Qed.

End Teardown.

Lemma browser_is_always_closed_witness :
  let s := Fake.start Demo.satje_caido in
  let s0 := MkSt Demo.satje_caido [CStart] in
  let s1 := MkSt Demo.satje_caido
              [CStart; CLaunch true launch_args; CNewContext; CNewPage;
               CSetDefaultTimeout PAGE_TIMEOUT_MS] in
  ∃ tail,
    log (snd (_buscar_juris_async default_URLS "despido" s))
    = log (snd (juris_try_body default_URLS "despido" s1)) ++ CContextClose :: tail
    ∧ (tail = [CStop] ∨ tail = [CBrowserClose; CStop])
    ∧ (fst (emit CContextClose (snd (juris_try_body default_URLS "despido" s1)))
       = Ok tt → tail = [CBrowserClose; CStop]).
Proof.
  cbv zeta.
  apply (proj1 (browser_is_always_closed default_URLS Demo.credenciales "despido"
                  (Fake.start Demo.satje_caido)
                  (MkSt Demo.satje_caido [CStart])
                  (MkSt Demo.satje_caido
                     [CStart; CLaunch true launch_args; CNewContext; CNewPage;
                      CSetDefaultTimeout PAGE_TIMEOUT_MS])
                  ltac:(discriminate) eq_refl eq_refl)).
Defined.

(** ** A failure while closing *)

Section CloseFailure.
Context {W Node : Type} `{!Browser W Node}.

(** An exception of the [finally] block leaves the [async with] as an
    exception, whatever the body returned. *)
Lemma close_failure_raises {A} (body : M W A) (s s0 s1 s2 : St W) (e : exn) :
  emit CStart s = (Ok tt, s0) →
  open_page s0 = (Ok tt, s1) →
  close_all (snd (body s1)) = (Raise e, s2) →
  ∃ e' s',
    async_with_playwright (open_page ;;; Run.try_finally body close_all) s
    = (Raise e', s').
Proof.
  intros Hstart Hopen Hclose. unfold async_with_playwright.
  unfold Run.bind at 1. rewrite Hstart.
  unfold Run.try_finally at 1. unfold Run.bind at 1. rewrite Hopen.
  unfold Run.try_finally at 1. destruct (body s1) as [r sb]. cbn [snd] in Hclose.
  rewrite Hclose. destruct (emit CStop s2) as [[[]|e3] s3]; by eexists _, _.
Qed.

(** X10.  A failure while closing costs the results.  If, after the sources
    were queried, closing the context or the browser raises, the judicial
    query returns an error dictionary without resultado, although the body
    of the query had returned its result list; and likewise the FielWeb
    query. *)
Theorem close_failure_discards_results (URLS : urls) (ENV : fielweb_env)
    (payload : gmap string pyval) (s s0 s1 : St W) :
  emit CStart s = (Ok tt, s0) →
  open_page s0 = (Ok tt, s1) →
  (∀ t e s2,
     texto_de (PyVal.get payload "texto") (PyVal.get payload "palabras_clave") = Ok t →
     t ≠ "" →
     close_all (snd (juris_try_body URLS t s1)) = (Raise e, s2) →
     ∃ d s' msg,
       consultar_jurisprudencia URLS payload s = (Ok d, s')
       ∧ d !! "resultado" = None
       ∧ d !! "error" = Some (PStr msg)
       ∧ ∃ rs, fst (juris_try_body URLS t s1)
               = Ok {[ "mensaje" := PStr ("Consulta completada para '" +:+ t +:+ "'.");
                       "nivel_consulta" := PStr "Jurisprudencia";
                       "resultado" := PList rs ]})
  ∧ (∀ t e s2,
       texto_de (PyVal.get payload "texto") (PyVal.get payload "consulta") = Ok t →
       t ≠ "" →
       forallb PyStr.truthy [FIELWEB_URL ENV; USERNAME ENV; PASSWORD ENV] = true →
       close_all (snd (fielweb_try_body ENV t s1)) = (Raise e, s2) →
       ∃ d s' msg,
         consultar_fielweb ENV payload s = (Ok d, s')
         ∧ d !! "resultado" = None
         ∧ d !! "error" = Some (PStr msg)).
Proof.
  intros Hstart Hopen. split.
  - intros t e s2 Ht Hne%truthy_spec Hclose.
    destruct (close_failure_raises _ _ _ _ _ _ Hstart Hopen Hclose) as (e' & s' & Hrun).
    unfold consultar_jurisprudencia, Run.bind, Run.lift. rewrite Ht, Hne. cbn [negb].
    unfold Run.try_except, Run.except_PWTimeout_then_Exception, _buscar_juris_async.
    rewrite Hne. cbn [negb]. rewrite Hrun.
    destruct (is_PWTimeout e'); eexists _, _, _;
      (split; [done|]); (split; [by simplify_map_eq|]);
      (split; [by simplify_map_eq|]);
      rewrite juris_try_body_eq; by eexists.
  - intros t e s2 Ht Hne%truthy_spec Henv Hclose.
    destruct (close_failure_raises _ _ _ _ _ _ Hstart Hopen Hclose) as (e' & s' & Hrun).
    unfold consultar_fielweb, Run.bind, Run.lift. rewrite Ht, Hne. cbn [negb].
    unfold Run.try_except, Run.except_PWTimeout_then_Exception,
      _buscar_en_fielweb_async.
    rewrite Henv. cbn [negb]. rewrite Hrun.
    destruct (is_PWTimeout e'); eexists _, _, _;
      (split; [done|]); split; by simplify_map_eq.
Qed.

End CloseFailure.

(** The Corte Constitucional yields two rulings, closing the browser raises:
    the caller gets the error dictionary. *)
Lemma close_failure_discards_results_witness :
  ∃ d s' msg,
    consultar_jurisprudencia default_URLS Demo.payload
      (Fake.start DemoCierre.cierre_roto) = (Ok d, s')
    ∧ d !! "resultado" = None
    ∧ d !! "error" = Some (PStr msg)
    ∧ ∃ rs, fst (juris_try_body default_URLS "despido intempestivo"
                   (MkSt DemoCierre.cierre_roto
                      [CStart; CLaunch true launch_args; CNewContext; CNewPage;
                       CSetDefaultTimeout PAGE_TIMEOUT_MS]))
            = Ok {[ "mensaje" := PStr ("Consulta completada para '"
                                       +:+ "despido intempestivo" +:+ "'.");
                    "nivel_consulta" := PStr "Jurisprudencia";
                    "resultado" := PList rs ]}.
Proof.
  assert (emit CStart (Fake.start DemoCierre.cierre_roto)
          = (Ok tt, MkSt DemoCierre.cierre_roto [CStart])) as Hstart
    by reflexivity.
  assert (open_page (MkSt DemoCierre.cierre_roto [CStart])
          = (Ok tt, MkSt DemoCierre.cierre_roto
                      [CStart; CLaunch true launch_args; CNewContext; CNewPage;
                       CSetDefaultTimeout PAGE_TIMEOUT_MS])) as Hopen
    by reflexivity.
  eapply (proj1 (close_failure_discards_results default_URLS Demo.credenciales
                   Demo.payload _ _ _ Hstart Hopen) "despido intempestivo"
            (Exn OtherException "Target closed")).
  - reflexivity.
  - discriminate.
  - vm_compute. reflexivity.
Defined.

(** ** The endpoints of one connector *)

Section EndpointFacts.
Context {W Node : Type} `{!Browser W Node}.


(** X12.  The key middleware never checks the key.  A request to one of the
    four open routes goes on to the next handler.  For any other path the
    test reads the name [API_KEY_DISABLED], which the module never binds:
    the middleware raises at once, whatever the configured key and whatever
    the request's header, and the next handler is not called.  The three
    consult routes are such paths. *)
Theorem api_key_is_never_compared {A} (API_KEY : option string) (path : string)
    (headers : gmap string string) (call_next : M W A) (s : St W) :
  verify_api_key API_KEY path headers call_next s =
    (if bool_decide (path ∈ allowed_routes) then call_next s
     else (Raise (Exn OtherException "name 'API_KEY_DISABLED' is not defined"), s))
  ∧ Forall (λ ruta,
              verify_api_key API_KEY ruta headers call_next s =
                (Raise (Exn OtherException "name 'API_KEY_DISABLED' is not defined"), s))
      ["/consult_real_fielweb"; "/consult_real_jurisprudencia"; "/consult_hybrid"].
Proof.
  assert (∀ ruta,
    verify_api_key API_KEY ruta headers call_next s =
      (if bool_decide (ruta ∈ allowed_routes) then call_next s
       else (Raise (Exn OtherException "name 'API_KEY_DISABLED' is not defined"), s)))
    as Heq.
  { intros ruta. unfold verify_api_key, Run.bind.
    by destruct (bool_decide (ruta ∈ allowed_routes)). }
  split; [apply Heq|]. repeat constructor; by rewrite Heq.
Qed.

(** X13.  A hybrid request without a query text is answered as a success:
    both connectors return their "missing text" error, the endpoint keeps
    neither message, and the answer is status "ok" with [None] for both
    result lists and both sources marked as consulted.  No call on the
    browser is made. *)
Theorem hybrid_blank_query_reports_success (ENV : fielweb_env) (URLS : urls)
    (payload : gmap string pyval) (s : St W) :
  en_blanco payload "texto" "consulta" = true →
  en_blanco payload "texto" "palabras_clave" = true →
  consult_hybrid ENV URLS true payload s =
    (Ok {[ "status" := PStr "ok";
           "mensaje" := PStr ("Consulta h" +:+ chr 237 +:+ "brida completada con "
                              +:+ chr 233 +:+ "xito");
           "texto_consultado" := PyVal.get_default payload "texto" (PStr "");
           "tipo_usuario" := PyVal.get_default payload "tipo_usuario" (PStr "");
           "fuentes_consultadas" :=
             PDict {[ "FielWeb" := PBool true; "Jurisprudencia" := PBool true ]};
           "resultado" :=
             PDict {[ "normativa_y_concordancias" := PNone;
                      "jurisprudencia_y_sentencias" := PNone ]} ]}, s).
Proof.
  intros H1 H2.
  unfold consult_hybrid, Run.try_except, Run.bind, Run.ret.
  unfold consultar_fielweb, consultar_jurisprudencia, Run.bind, Run.lift, Run.ret.
  rewrite (en_blanco_texto_de _ _ _ H1), (en_blanco_texto_de _ _ _ H2).
  reflexivity.
Qed.

End EndpointFacts.

Lemma hybrid_blank_query_reports_success_witness :
  consult_hybrid Demo.credenciales default_URLS true DemoBlanco.payload
    (Fake.start Demo.satje_caido) =
    (Ok {[ "status" := PStr "ok";
           "mensaje" := PStr ("Consulta h" +:+ chr 237 +:+ "brida completada con "
                              +:+ chr 233 +:+ "xito");
           "texto_consultado" :=
             PyVal.get_default DemoBlanco.payload "texto" (PStr "");
           "tipo_usuario" :=
             PyVal.get_default DemoBlanco.payload "tipo_usuario" (PStr "");
           "fuentes_consultadas" :=
             PDict {[ "FielWeb" := PBool true; "Jurisprudencia" := PBool true ]};
           "resultado" :=
             PDict {[ "normativa_y_concordancias" := PNone;
                      "jurisprudencia_y_sentencias" := PNone ]} ]},
     Fake.start Demo.satje_caido).
Proof.
  exact (hybrid_blank_query_reports_success Demo.credenciales default_URLS
           DemoBlanco.payload (Fake.start Demo.satje_caido) eq_refl eq_refl).
Defined.

(** ** FielWeb without its form controls *)

Section NoControls.
Context {W Node : Type} `{!Browser W Node}.

Lemma login_without_controls (url user password : string) (s s1 : St W) :
  goto url s = (Ok tt, s1) →
  sin_login s1 →
  _login url user password s
  = (Raise (Exn RuntimeError
              "Campos de login no encontrados (posible cambio en FielWeb)."),
     snd (_first_selector LOGIN_SELECTORS_submit
            (snd (_first_selector LOGIN_SELECTORS_password
                    (snd (_first_selector LOGIN_SELECTORS_user s1)))))).
Proof.
  intros Hg Hsin. unfold _login, Run.bind. rewrite Hg.
  destruct (first_selector_Ok LOGIN_SELECTORS_user s1) as (u & Hu).
  rewrite Hu.
  destruct (first_selector_Ok LOGIN_SELECTORS_password
              (snd (_first_selector LOGIN_SELECTORS_user s1))) as (p & Hp).
  rewrite Hp.
  destruct (first_selector_Ok LOGIN_SELECTORS_submit
              (snd (_first_selector LOGIN_SELECTORS_password
                      (snd (_first_selector LOGIN_SELECTORS_user s1)))))
    as (b & Hb).
  rewrite Hb.
  destruct Hsin as [Hm|[Hm|Hm]]; apply first_selector_all_miss in Hm.
  - rewrite Hu in Hm. injection Hm as ->. done.
  - rewrite Hp in Hm. injection Hm as ->.
    cbn [forallb]. by destruct (sel_truthy u).
  - rewrite Hb in Hm. injection Hm as ->.
    cbn [forallb]. by destruct (sel_truthy u), (sel_truthy p).
Qed.

Lemma log_goto (url : string) (s s1 : St W) :
  goto url s = (Ok tt, s1) →
  log s1 = log s ++ [CGoto url "domcontentloaded" NAV_TIMEOUT_MS].
Proof. intros Hg. unfold goto in Hg. rewrite <- log_emit. by rewrite Hg. Qed.

(** X15.  When the FielWeb login page loads but one of its three controls
    (user, password, submit) is not found, the flow ends as the "internal
    error" dictionary that says the login fields were not found; after the
    navigation the connector has only probed selectors, so the credentials
    were typed nowhere.  Likewise a search on a page without the query field
    or the search button raises the "controls not found" error after probes
    only. *)
Theorem fielweb_controls_missing (ENV : fielweb_env) (texto : string) (s : St W) :
  (∀ s1, goto (FIELWEB_URL ENV) s = (Ok tt, s1) →
         sin_login s1 →
         ∃ s4 n m k,
           fielweb_try_body ENV texto s
           = (Ok {[ "error" :=
                      PStr ("Error interno en la b" +:+ chr 250 +:+ "squeda: "
                            +:+ "Campos de login no encontrados (posible cambio en FielWeb).");
                    "nivel_consulta" := PStr "FielWeb" ]}, s4)
           ∧ log s4 = log s
                        ++ [CGoto (FIELWEB_URL ENV) "domcontentloaded" NAV_TIMEOUT_MS]
                        ++ probes LOGIN_SELECTORS_user n
                        ++ probes LOGIN_SELECTORS_password m
                        ++ probes LOGIN_SELECTORS_submit k)
  ∧ (sin_formulario SEARCH_SELECTORS_query SEARCH_SELECTORS_submit s →
     ∃ s3 n m,
       _buscar texto s
       = (Raise (Exn RuntimeError
                   ("No se encontraron los controles de b" +:+ chr 250 +:+ "squeda.")),
          s3)
       ∧ log s3 = log s ++ probes SEARCH_SELECTORS_query n
                        ++ probes SEARCH_SELECTORS_submit m).
Proof.
  split.
  - intros s1 Hg Hsin.
    destruct (first_selector_log LOGIN_SELECTORS_submit
                (snd (_first_selector LOGIN_SELECTORS_password
                        (snd (_first_selector LOGIN_SELECTORS_user s1)))))
      as (k & Hk).
    destruct (first_selector_log LOGIN_SELECTORS_password
                (snd (_first_selector LOGIN_SELECTORS_user s1))) as (m & Hm).
    destruct (first_selector_log LOGIN_SELECTORS_user s1) as (n & Hn).
    eexists _, n, m, k. split.
    + unfold fielweb_try_body, Run.try_except. unfold Run.bind at 1.
      rewrite (login_without_controls _ _ _ _ _ Hg Hsin). reflexivity.
    + rewrite Hk, Hm, Hn, (log_goto _ _ _ Hg). unfold probes.
      by rewrite <- !app_assoc.
  - intros Hsin.
    destruct (first_selector_log SEARCH_SELECTORS_submit
                (snd (_first_selector SEARCH_SELECTORS_query s))) as (m & Hm).
    destruct (first_selector_log SEARCH_SELECTORS_query s) as (n & Hn).
    eexists _, n, m. split.
    + unfold _buscar, Run.bind.
      destruct (first_selector_Ok SEARCH_SELECTORS_query s) as (q & Hq).
      rewrite Hq.
      destruct (first_selector_Ok SEARCH_SELECTORS_submit
                  (snd (_first_selector SEARCH_SELECTORS_query s))) as (b & Hb).
      rewrite Hb.
      destruct Hsin as [Hmiss|Hmiss]; apply first_selector_all_miss in Hmiss.
      * rewrite Hq in Hmiss. injection Hmiss as ->. reflexivity.
      * rewrite Hb in Hmiss. injection Hmiss as ->.
        cbn [forallb]. by destruct (sel_truthy q).
    + rewrite Hm, Hn. unfold probes. by rewrite <- !app_assoc.
Qed.

End NoControls.

(** On a login page with no control at all, the flow reports the missing
    login fields after the navigation and fourteen probes. *)
Lemma fielweb_controls_missing_witness :
  let s := Fake.start Demo.sin_formularios in
  ∃ s4 n m k,
    fielweb_try_body Demo.credenciales "despido" s
    = (Ok {[ "error" :=
               PStr ("Error interno en la b" +:+ chr 250 +:+ "squeda: "
                     +:+ "Campos de login no encontrados (posible cambio en FielWeb).");
             "nivel_consulta" := PStr "FielWeb" ]}, s4)
    ∧ log s4 = log s
                 ++ [CGoto (FIELWEB_URL Demo.credenciales) "domcontentloaded"
                       NAV_TIMEOUT_MS]
                 ++ probes LOGIN_SELECTORS_user n
                 ++ probes LOGIN_SELECTORS_password m
                 ++ probes LOGIN_SELECTORS_submit k.
Proof.
  cbv zeta.
  eapply (proj1 (fielweb_controls_missing Demo.credenciales "despido"
                   (Fake.start Demo.sin_formularios))).
  - reflexivity.
  - left. reflexivity.
Defined.
